(** * ProveX Sacrifice Calculator: the rate schedule and the points formula

    A shallow embedding of [src/app/layout.tsx]: the schedule function
    [computeRateForDate], the memoised points computation of [HomePage]
    and the two event handlers [handleDateChange] and [handleUseToday],
    together with the part of the JavaScript runtime they call
    ([parseFloat], [Number.prototype.toFixed], [Math.pow], [Date]).

    Modelling decisions.
    - A JavaScript number is an exact rational, one of the two infinities
      or NaN ([JS.number]).  Arithmetic is exact: the rounding, overflow
      and underflow of binary64 and the sign of zero are outside the model.
    - A string is a [string] of 8-bit characters (ASCII text).
    - A [Date] is its time value: an integer count of milliseconds since
      1970-01-01T00:00:00Z, or nothing for an invalid date.  Parsing follows
      the Date Time String Format of ECMAScript on the strings that have
      the format; what an engine makes of any other string is a parameter
      ([engine_parse]), and the properties hold for every engine.
    - [Math.floor] of the quotient of two integers is the floor division of
      [Z], and [Math.pow] is taken at an integral exponent.
    - React state is a record that the handlers transform; the current time
      read by [new Date()] is an argument of [handleUseToday].  What the
      user does is a list of events, each bound to its handler as in the
      markup.
    - [formatNumber] takes the locale's [toLocaleString] as a parameter;
      the rest of the markup is presentation and is not modelled. *)

From Stdlib Require Import ZArith QArith Qcanon Bool List String Ascii Lia.
Import ListNotations.

Local Open Scope string_scope.
Local Open Scope Z_scope.

(** ** The JavaScript runtime *)

Module JS.

(** *** Numbers *)

Inductive number : Type :=
| NaN : number
| Inf (negative : bool) : number
| Fin (q : Qc) : number.

Definition Qc_eqb (a b : Qc) : bool := Qeq_bool a b.

Definition Qc_ltb (a b : Qc) : bool :=
  match (a ?= b)%Qc with Lt => true | _ => false end.

(** An integer as a number. *)
Definition of_Z (z : Z) : number := Fin (Q2Qc (inject_Z z)).

(** A decimal literal [n / d], as in [dec 100115 10000] for [10.0115]. *)
Definition dec (n : Z) (d : positive) : number := Fin (Q2Qc (n # d)).

Definition zero : number := of_Z 0.
Definition one : number := of_Z 1.

(** ToBoolean on a number: NaN and zero are falsy. *)
Definition truthy (x : number) : bool :=
  match x with
  | NaN => false
  | Inf _ => true
  | Fin q => negb (Qc_eqb q 0)
  end.

(** [x || d] on numbers. *)
Definition or_else (x d : number) : number := if truthy x then x else d.

(** [x > y]. *)
Definition gt (x y : number) : bool :=
  match x, y with
  | NaN, _ | _, NaN => false
  | Fin a, Fin b => Qc_ltb b a
  | Inf s, Inf s' => negb s && s'
  | Inf s, Fin _ => negb s
  | Fin _, Inf s => s
  end.

(** Strict equality [x === y]. *)
Definition eqb (x y : number) : bool :=
  match x, y with
  | Fin a, Fin b => Qc_eqb a b
  | Inf s, Inf s' => Bool.eqb s s'
  | _, _ => false
  end.

Definition add (x y : number) : number :=
  match x, y with
  | NaN, _ | _, NaN => NaN
  | Fin a, Fin b => Fin (a + b)
  | Inf s, Inf s' => if Bool.eqb s s' then Inf s else NaN
  | Inf s, Fin _ | Fin _, Inf s => Inf s
  end.

Definition mul (x y : number) : number :=
  match x, y with
  | NaN, _ | _, NaN => NaN
  | Fin a, Fin b => Fin (a * b)
  | Inf s, Inf s' => Inf (xorb s s')
  | Inf s, Fin b | Fin b, Inf s =>
      if Qc_eqb b 0 then NaN else Inf (xorb s (Qc_ltb b 0))
  end.

Definition div (x y : number) : number :=
  match x, y with
  | NaN, _ | _, NaN => NaN
  | Fin a, Fin b =>
      if Qc_eqb b 0
      then if Qc_eqb a 0 then NaN else Inf (Qc_ltb a 0)
      else Fin (a / b)
  | Fin _, Inf _ => Fin 0
  | Inf s, Fin b => Inf (xorb s (Qc_ltb b 0))
  | Inf _, Inf _ => NaN
  end.

(** [Math.pow(b, e)] at an integral exponent [e]. *)
Definition Math_pow (b : number) (e : Z) : number :=
  if e =? 0 then one
  else match b with
       | NaN => NaN
       | Inf s => if 0 <? e then Inf (s && Z.odd e) else zero
       | Fin q =>
           if 0 <? e then Fin (q ^ Z.to_nat e)
           else if Qc_eqb q 0 then Inf false
           else Fin (/ q ^ Z.to_nat (- e))
       end.

(** *** Characters and digits *)

(** The code of a character. *)
Definition code (c : ascii) : Z := Z.of_N (N_of_ascii c).

Definition is_digit (c : ascii) : bool :=
  (48 <=? code c) && (code c <=? 57).

Definition digit_value (c : ascii) : Z := code c - 48.

Definition digit_char (d : Z) : ascii := ascii_of_N (Z.to_N (d + 48)).

(** The ASCII members of StrWhiteSpaceChar: TAB, LF, VT, FF, CR, SP. *)
Definition is_white (c : ascii) : bool :=
  ((9 <=? code c) && (code c <=? 13)) || (code c =? 32).

Fixpoint trim_start (s : string) : string :=
  match s with
  | String c r => if is_white c then trim_start r else s
  | EmptyString => s
  end.

(** The longest run of decimal digits at the head of [s]: its value on top
    of [acc], its length, and what follows. *)
Fixpoint read_digits (s : string) (acc : Z) (len : nat) : Z * nat * string :=
  match s with
  | String c r =>
      if is_digit c then read_digits r (10 * acc + digit_value c) (S len)
      else (acc, len, s)
  | EmptyString => (acc, len, s)
  end.

(** [s.startsWith(p)], giving the rest of [s]. *)
Fixpoint strip_prefix (p s : string) : option string :=
  match p, s with
  | EmptyString, _ => Some s
  | String a p', String b s' =>
      if Ascii.eqb a b then strip_prefix p' s' else None
  | String _ _, EmptyString => None
  end.

(** *** parseFloat *)

(** ExponentPart, when one is present at the head of [s]; otherwise [0]. *)
Definition read_exponent (s : string) : Z :=
  match s with
  | String c r =>
      if Ascii.eqb c "e" || Ascii.eqb c "E" then
        let '(neg, r') :=
          match r with
          | String "+" r' => (false, r')
          | String "-" r' => (true, r')
          | _ => (false, r)
          end in
        let '(v, n, _) := read_digits r' 0 0 in
        match n with
        | O => 0
        | S _ => if neg then - v else v
        end
      else 0
  | EmptyString => 0
  end.

(** [m * 10^e] for a rational [m]. *)
Definition scale10 (m : Qc) (e : Z) : Qc :=
  if 0 <=? e then (m * Q2Qc (inject_Z (10 ^ e)))%Qc
  else (m / Q2Qc (inject_Z (10 ^ (- e))))%Qc.

(** StrUnsignedDecimalLiteral: the value of the longest prefix of [s] that
    is one, or NaN when no prefix is. *)
Definition read_unsigned (s : string) : number :=
  match strip_prefix "Infinity" s with
  | Some _ => Inf false
  | None =>
      let '(i, ni, r) := read_digits s 0 0 in
      let '(f, nf, r') :=
        match r with
        | String "." t => read_digits t 0 0
        | _ => (0, O, r)
        end in
      match ni, nf with
      | O, O => NaN
      | _, _ =>
          let p := 10 ^ Z.of_nat nf in
          Fin (scale10 (Q2Qc ((i * p + f) # Z.to_pos p)) (read_exponent r'))
      end
  end.

Definition negate (x : number) : number :=
  match x with
  | NaN => NaN
  | Inf s => Inf (negb s)
  | Fin q => Fin (- q)
  end.

(** [parseFloat(text)]: leading white space is skipped, the longest prefix
    that is a StrDecimalLiteral is read, and NaN is the answer when there
    is none. *)
Definition parseFloat (text : string) : number :=
  match trim_start text with
  | String "+" r => read_unsigned r
  | String "-" r => negate (read_unsigned r)
  | s => read_unsigned s
  end.

(** *** Number.prototype.toFixed *)

(** The last [w] decimal digits of [n], in front of [acc]. *)
Fixpoint fixed_digits (w : nat) (n : Z) (acc : string) : string :=
  match w with
  | O => acc
  | S k => fixed_digits k (n / 10) (String (digit_char (n mod 10)) acc)
  end.

(** The decimal digits of [n >= 0], without leading zeros ("0" for zero).
    [fuel] bounds the number of digits. *)
Fixpoint digits_of (fuel : nat) (n : Z) (acc : string) : string :=
  match fuel with
  | O => acc
  | S k =>
      let acc' := String (digit_char (n mod 10)) acc in
      if n <? 10 then acc' else digits_of k (n / 10) acc'
  end.

Definition decimal (n : Z) : string :=
  digits_of (S (Z.to_nat (Z.log2 n))) n "".

(** The integer [n] for which [n / 10^f - a] is closest to zero, the larger
    one when two are equally close ([a >= 0]). *)
Definition round_scaled (a : Qc) (f : nat) : Z :=
  let p := 10 ^ Z.of_nat f in
  (2 * Qnum a * p + Zpos (Qden a)) / (2 * Zpos (Qden a)).

(** [x.toFixed(f)].  JavaScript switches to exponent notation from 10^21 on;
    the model prints plain digits at every magnitude. *)
Definition toFixed (x : number) (f : nat) : string :=
  match x with
  | NaN => "NaN"
  | Inf false => "Infinity"
  | Inf true => "-Infinity"
  | Fin q =>
      let neg := Qc_ltb q 0 in
      let a := if neg then (- q)%Qc else q in
      let n := round_scaled a f in
      let p := 10 ^ Z.of_nat f in
      let m :=
        match f with
        | O => decimal n
        | S _ => decimal (n / p) ++ "." ++ fixed_digits f (n mod p) ""
        end in
      if neg then "-" ++ m else m
  end.

(** *** Date *)

(** A time value: milliseconds since the epoch.  An invalid date (time
    value NaN) is [None] of [option time]. *)
Definition time := Z.

Definition ms_per_day : Z := 86400000.

Definition DayFromYear (y : Z) : Z :=
  365 * (y - 1970) + (y - 1969) / 4 - (y - 1901) / 100 + (y - 1601) / 400.

Definition InLeapYear (y : Z) : bool :=
  (y mod 4 =? 0) && (negb (y mod 100 =? 0) || (y mod 400 =? 0)).

Definition month_lengths (y : Z) : list Z :=
  [31; if InLeapYear y then 29 else 28; 31; 30; 31; 30; 31; 31; 30; 31; 30; 31].

Definition days_in_month (y m : Z) : Z :=
  nth (Z.to_nat (m - 1)) (month_lengths y) 0.

Definition days_before_month (y m : Z) : Z :=
  fold_right Z.add 0 (firstn (Z.to_nat (m - 1)) (month_lengths y)).

(** MakeDay for a calendar date: month [m] in 1..12, day [d] from 1. *)
Definition MakeDay (y m d : Z) : Z :=
  DayFromYear y + days_before_month y m + d - 1.

(** Exactly [n] decimal digits at the head of [s]. *)
Fixpoint read_fixed (n : nat) (s : string) (acc : Z) : option (Z * string) :=
  match n with
  | O => Some (acc, s)
  | S k =>
      match s with
      | String c r =>
          if is_digit c then read_fixed k r (10 * acc + digit_value c) else None
      | EmptyString => None
      end
  end.

(** After two-digit field [sep]-prefixed, when present. *)
Definition read_field (sep : ascii) (s : string) : option (option Z * string) :=
  match s with
  | String c r =>
      if Ascii.eqb c sep then
        match read_fixed 2 r 0 with
        | Some (v, r') => Some (Some v, r')
        | None => None
        end
      else Some (None, s)
  | EmptyString => Some (None, s)
  end.

(** The Date Time String Format of ECMAScript, for the strings this program
    builds: a date [YYYY], [YYYY-MM] or [YYYY-MM-DD] of the calendar,
    followed by [THH:mm:ssZ].  [None] for any other string. *)
Definition parse_iso_utc (s : string) : option time :=
  match read_fixed 4 s 0 with
  | None => None
  | Some (y, r1) =>
      match read_field "-" r1 with
      | None => None
      | Some (om, r2) =>
          match (match om with
                 | Some _ => read_field "-" r2
                 | None => Some (None, r2)
                 end) with
          | None => None
          | Some (od, r3) =>
              let m := match om with Some m => m | None => 1 end in
              let d := match od with Some d => d | None => 1 end in
              match r3 with
              | String "T" r4 =>
                  match read_fixed 2 r4 0 with
                  | Some (hh, String ":" r5) =>
                      match read_fixed 2 r5 0 with
                      | Some (mi, String ":" r6) =>
                          match read_fixed 2 r6 0 with
                          | Some (ss, "Z") =>
                              if (1 <=? m) && (m <=? 12) && (1 <=? d)
                                 && (d <=? days_in_month y m)
                                 && (mi <=? 59) && (ss <=? 59)
                                 && ((hh <=? 23)
                                     || ((hh =? 24) && (mi =? 0) && (ss =? 0)))
                              then Some (MakeDay y m d * ms_per_day
                                         + hh * 3600000 + mi * 60000 + ss * 1000)
                              else None
                          | _ => None
                          end
                      | _ => None
                      end
                  | _ => None
                  end
              | _ => None
              end
          end
      end
  end.

(** [new Date(s).getTime()].  A string in the format above has the time
    value the format gives it.  ECMAScript leaves every other string to the
    engine ([engine_parse]), which answers a time value or an invalid date. *)
Definition Date_parse (engine_parse : string -> option time) (s : string)
  : option time :=
  match parse_iso_utc s with
  | Some t => Some t
  | None => engine_parse s
  end.

(** An engine that recognises nothing outside the format. *)
Definition strict_engine : string -> option time := fun _ => None.

(** Year, month (1..12) and day of the month of day number [day]
    (YearFromTime, MonthFromTime and DateFromTime). *)
Definition civil_from_day (day : Z) : Z * Z * Z :=
  let z := day + 719468 in
  let era := z / 146097 in
  let doe := z - era * 146097 in
  let yoe := (doe - doe / 1460 + doe / 36524 - doe / 146096) / 365 in
  let doy := doe - (365 * yoe + yoe / 4 - yoe / 100) in
  let mp := (5 * doy + 2) / 153 in
  let d := doy - (153 * mp + 2) / 5 + 1 in
  let m := if mp <? 10 then mp + 3 else mp - 9 in
  let y := yoe + era * 400 + (if m <=? 2 then 1 else 0) in
  (y, m, d).

(** [new Date(t).toISOString()]. *)
Definition toISOString (t : time) : string :=
  let '(y, m, d) := civil_from_day (t / ms_per_day) in
  let ms := t mod ms_per_day in
  let year :=
    if (0 <=? y) && (y <=? 9999) then fixed_digits 4 y ""
    else String (if y <? 0 then "-"%char else "+"%char) (fixed_digits 6 (Z.abs y) "") in
  year ++ "-" ++ fixed_digits 2 m "" ++ "-" ++ fixed_digits 2 d ""
       ++ "T" ++ fixed_digits 2 (ms / 3600000) ""
       ++ ":" ++ fixed_digits 2 (ms / 60000 mod 60) ""
       ++ ":" ++ fixed_digits 2 (ms / 1000 mod 60) ""
       ++ "." ++ fixed_digits 3 (ms mod 1000) "" ++ "Z".

(** [s.slice(lo, hi)] for [0 <= lo <= hi]. *)
Definition slice (lo hi : nat) (s : string) : string :=
  substring lo (hi - lo) s.

End JS.

(** ** The program *)

Module ProveX.
Import JS.

(** *** Schedule constants *)

Definition BASE_RATE : number := of_Z 1.
Definition DAILY_DECAY : number := dec 625 10000.

(** [new Date("2025-11-11T00:00:00Z")], [new Date("2025-12-02T00:00:00Z")]
    and [new Date("2026-01-09T00:00:00Z")], as time values. *)
Definition START_DATE : time := 1762819200000.
Definition BASE_END_DATE : time := 1764633600000.
Definition END_DATE : time := 1767916800000.

Definition MAX_RATE : number := dec 100115 10000.

Section Schedule.

(** *** computeRateForDate *)

(** What the engine's [Date] does with a string outside the Date Time
    String Format. *)
Variable engine_parse : string -> option time.

(** [null] is [None]. *)
Definition computeRateForDate (dateStr : string) : option number :=
  if String.eqb dateStr "" then None
  else
    let msPerDay := 1000 * 60 * 60 * 24 in
    match Date_parse engine_parse (dateStr ++ "T00:00:00Z") with
    | None => None
    | Some d =>
        if d <? START_DATE then Some BASE_RATE
        else if d >? END_DATE then Some MAX_RATE
        else if d <=? BASE_END_DATE then Some BASE_RATE
        else
          let decayDays := (d - BASE_END_DATE) / msPerDay in
          let newRate :=
            mul BASE_RATE (Math_pow (add (of_Z 1) DAILY_DECAY) decayDays) in
          let newRate := if gt newRate MAX_RATE then MAX_RATE else newRate in
          Some newRate
    end.

(** *** HomePage *)

(** The four [useState] cells. *)
Record State : Type := mkState {
  usd : string;
  rate : string;
  bonus : string;
  sacrificeDate : string
}.

Definition initialState : State :=
  {| usd := "1000";
     rate := toFixed BASE_RATE 4;
     bonus := "2.0";
     sacrificeDate := "2025-11-11" |}.

Definition setRate (v : string) (st : State) : State :=
  {| usd := usd st; rate := v; bonus := bonus st;
     sacrificeDate := sacrificeDate st |}.

Definition setSacrificeDate (v : string) (st : State) : State :=
  {| usd := usd st; rate := rate st; bonus := bonus st;
     sacrificeDate := v |}.

(** What the [useMemo] callback returns. *)
Record Points : Type := mkPoints {
  usdAmount : number;
  ratePer10k : number;
  bonusX : number;
  basePoints : number;
  totalPoints : number;
  effectivePerUsd : number
}.

(** The [useMemo] callback, a function of its three dependencies. *)
Definition HomePage_compute (usd rate bonus : string) : Points :=
  let usdAmount := or_else (parseFloat usd) (of_Z 0) in
  let ratePer10k := or_else (parseFloat rate) (of_Z 0) in
  let bonusX := or_else (parseFloat bonus) (of_Z 1) in
  let basePoints := of_Z 0 in
  let totalPoints := of_Z 0 in
  let effectivePerUsd := of_Z 0 in
  if gt usdAmount (of_Z 0) && gt ratePer10k (of_Z 0) then
    let basePoints := mul usdAmount (div (of_Z 10000) ratePer10k) in
    let totalPoints := mul basePoints bonusX in
    let effectivePerUsd := div totalPoints usdAmount in
    mkPoints usdAmount ratePer10k bonusX basePoints totalPoints effectivePerUsd
  else
    mkPoints usdAmount ratePer10k bonusX basePoints totalPoints effectivePerUsd.

(** The points shown for a state. *)
Definition render (st : State) : Points :=
  HomePage_compute (usd st) (rate st) (bonus st).

Definition handleDateChange (value : string) (st : State) : State :=
  let st := setSacrificeDate value st in
  match computeRateForDate value with
  | Some computed => setRate (toFixed computed 4) st
  | None => st
  end.

(** [now] is the time value of [new Date()]. *)
Definition handleUseToday (now : time) (st : State) : State :=
  let iso := slice 0 10 (toISOString now) in
  let st := setSacrificeDate iso st in
  match computeRateForDate iso with
  | Some computed => setRate (toFixed computed 4) st
  | None => st
  end.

End Schedule.

(** *** The schedule in closed form

    The policy of the schedule on a valid time value, over the rationals:
    the comparison of [computeRateForDate] against it is
    [computeRateForDate_schedule] below. *)

Definition baseRate : Qc := 1.
Definition dailyGrowthRate : Qc := Q2Qc (625 # 10000).
Definition maxRate : Qc := Q2Qc (100115 # 10000).

(** [baseRate * (1 + dailyGrowthRate) ^ n]. *)
Definition growth (n : nat) : Qc := baseRate * (1 + dailyGrowthRate) ^ n.

(** The cap as a ceiling. *)
Definition clamp (x : Qc) : Qc := if Qc_ltb maxRate x then maxRate else x.

(** Whole days from the flat-end date to [d], truncated downwards. *)
Definition daysElapsed (d : time) : Z := (d - BASE_END_DATE) / ms_per_day.

Definition schedule (d : time) : Qc :=
  if d <=? BASE_END_DATE then baseRate
  else if d >? END_DATE then maxRate
  else clamp (growth (Z.to_nat (daysElapsed d))).

(** [q] rounded to four decimal places, halves upwards ([q >= 0]). *)
Definition round4 (q : Qc) : Qc := Q2Qc (round_scaled q 4 # 10000).

Definition rounded4 (x : number) : number :=
  match x with
  | Fin q => Fin (round4 q)
  | _ => x
  end.

(** Whether the rate [q], once written by [toFixed(4)] into the rate field and
    read back by the points computation, is [q] rounded to four places. *)
Definition stored_rounded (q : Qc) : bool :=
  eqb (or_else (parseFloat (toFixed (Fin q) 4)) (of_Z 0)) (Fin (round4 q)).

(** The text that [dateStr] is parsed from. *)
Definition dateText (dateStr : string) : string := dateStr ++ "T00:00:00Z".

(** The first ten characters of [toISOString] for a time value of day
    number [day], when the year has four digits. *)
Definition isoDate (day : Z) : string :=
  let '(y, m, d) := civil_from_day day in
  fixed_digits 4 y "" ++ "-" ++ fixed_digits 2 m "" ++ "-"
    ++ fixed_digits 2 d "".

(** Day [day] is written with a four-digit year, and what is written parses
    back to the midnight of that day. *)
Definition iso_day_ok (day : Z) : bool :=
  let '(y, _, _) := civil_from_day day in
  (0 <=? y) && (y <=? 9999)
  && match parse_iso_utc (dateText (isoDate day)) with
     | Some t => t =? day * ms_per_day
     | None => false
     end.

(** [iso_day_ok] on the [n] days from [day] on. *)
Fixpoint iso_days_ok (n : nat) (day : Z) : bool :=
  match n with
  | O => true
  | S k => iso_day_ok day && iso_days_ok k (day + 1)
  end.

(** 2100-01-01T00:00:00Z, day 47482. *)
Definition YEAR_2100 : time := 4102444800000.

(** An engine that also reads "noon <date>" as 12:00 UTC of the date. *)
Definition noon_engine (s : string) : option time :=
  match strip_prefix "noon " s with
  | Some r =>
      match parse_iso_utc r with
      | Some t => Some (t + 43200000)
      | None => None
      end
  | None => None
  end.

(** *** The other inputs and the page as a whole *)

(** [setUsd] and [setBonus], the [onChange] handlers of the amount and the
    bonus inputs. *)
Definition setUsd (v : string) (st : State) : State :=
  {| usd := v; rate := rate st; bonus := bonus st;
     sacrificeDate := sacrificeDate st |}.

Definition setBonus (v : string) (st : State) : State :=
  {| usd := usd st; rate := rate st; bonus := v;
     sacrificeDate := sacrificeDate st |}.

(** What the user can do on the page: type in one of the four inputs, or
    press "Use today" at the time [now]. *)
Inductive event : Type :=
| UsdChange (v : string)
| DateChange (v : string)
| UseToday (now : time)
| RateChange (v : string)
| BonusChange (v : string).

(** The handler the markup binds to each event. *)
Definition handle (engine_parse : string -> option time) (ev : event)
    (st : State) : State :=
  match ev with
  | UsdChange v => setUsd v st
  | DateChange v => handleDateChange engine_parse v st
  | UseToday now => handleUseToday engine_parse now st
  | RateChange v => setRate v st
  | BonusChange v => setBonus v st
  end.

(** The state after a sequence of events, the earliest first. *)
Definition run (engine_parse : string -> option time) (evs : list event)
    (st : State) : State :=
  fold_left (fun st ev => handle engine_parse ev st) evs st.

(** The event is not a manual override of the rate. *)
Definition keeps_rate_auto (ev : event) : bool :=
  match ev with
  | RateChange _ => false
  | _ => true
  end.

(** The event does not write the rate field: an amount or bonus edit, or a
    date without a schedule rate. *)
Definition leaves_rate (engine_parse : string -> option time) (ev : event)
  : bool :=
  match ev with
  | UsdChange _ | BonusChange _ => true
  | DateChange v =>
      match computeRateForDate engine_parse v with
      | Some _ => false
      | None => true
      end
  | UseToday now =>
      match computeRateForDate engine_parse (slice 0 10 (toISOString now)) with
      | Some _ => false
      | None => true
      end
  | RateChange _ => false
  end.

(** The rate field is the date field's schedule rate, with four decimals,
    whenever the date field has a schedule rate. *)
Definition rate_follows_date (engine_parse : string -> option time)
    (st : State) : Prop :=
  match computeRateForDate engine_parse (sacrificeDate st) with
  | Some r => rate st = toFixed r 4
  | None => True
  end.

(** *** formatNumber and the result cards *)

(** [Number.isFinite(x)], [Math.abs(x)] and [x < y]. *)
Definition isFinite (x : number) : bool :=
  match x with
  | Fin _ => true
  | _ => false
  end.

Definition Math_abs (x : number) : number :=
  match x with
  | NaN => NaN
  | Inf _ => Inf false
  | Fin q => Fin (if Qc_ltb q 0 then (- q)%Qc else q)
  end.

Definition lt (x y : number) : bool := gt y x.

Section Format.

(** [value.toLocaleString(undefined, { maximumFractionDigits: 2 })]: the
    text depends on the locale of the runtime. *)
Variable toLocaleString : number -> string.

Definition formatNumber (value : number) : string :=
  if negb (isFinite value) then "-"
  else if eqb value (of_Z 0) then "0"
  else if lt (Math_abs value) (of_Z 1) then toFixed value 4
  else if lt (Math_abs value) (of_Z 1000000) then toLocaleString value
  else toLocaleString value.

(** The texts of the four result values:
    [{basePoints ? formatNumber(basePoints) : "-"}] and the like. *)
Definition basePointsText (p : Points) : string :=
  if truthy (basePoints p) then formatNumber (basePoints p) else "-".

Definition bonusText (p : Points) : string :=
  if truthy (bonusX p) then formatNumber (bonusX p) ++ "x" else "-".

Definition totalPointsText (p : Points) : string :=
  if truthy (totalPoints p) then formatNumber (totalPoints p) else "-".

Definition effectivePerUsdText (p : Points) : string :=
  if truthy (effectivePerUsd p) then formatNumber (effectivePerUsd p)
  else "-".

End Format.

(** ** Properties *)

(** *** Numbers *)

Lemma Fin_Qeq (a b : Qc) : (a == b)%Q -> Fin a = Fin b.
Proof. intros H. f_equal. now apply Qc_is_canon. Qed.

Lemma Qc_ltb_lt (a b : Qc) : Qc_ltb a b = true <-> (a < b)%Qc.
Proof.
  unfold Qc_ltb. rewrite Qclt_alt.
  destruct (a ?= b)%Qc; split; intro H; congruence.
Qed.

Lemma Qc_ltb_ge (a b : Qc) : Qc_ltb a b = false <-> (b <= a)%Qc.
Proof.
  split; intro H.
  - apply Qcnot_lt_le. intro L. apply Qc_ltb_lt in L. congruence.
  - destruct (Qc_ltb a b) eqn:E; trivial.
    apply Qc_ltb_lt in E. now apply Qcle_not_lt in H.
Qed.

Lemma Qc_eqb_eq (a b : Qc) : Qc_eqb a b = true <-> a = b.
Proof.
  unfold Qc_eqb. rewrite Qeq_bool_iff. split.
  - apply Qc_is_canon.
  - now intros ->.
Qed.

Lemma eqb_eq (x y : number) : eqb x y = true -> x = y.
Proof.
  destruct x as [|s|a], y as [|s'|b]; simpl; try discriminate.
  - intros H. apply Bool.eqb_prop in H. now subst.
  - intros H. apply Qc_eqb_eq in H. now subst.
Qed.

(** Closes an equation between two closed numbers by evaluation. *)
Ltac js_eval :=
  vm_compute;
  repeat lazymatch goal with
    | |- Some _ = Some _ => apply f_equal
    | |- Fin _ = Fin _ => apply Fin_Qeq; vm_compute
    end;
  reflexivity.

(** *** The schedule *)

Lemma parse_constants (engine : string -> option time) :
  Date_parse engine "2025-11-11T00:00:00Z" = Some START_DATE
  /\ Date_parse engine "2025-12-02T00:00:00Z" = Some BASE_END_DATE
  /\ Date_parse engine "2026-01-09T00:00:00Z" = Some END_DATE.
Proof. repeat split; vm_compute; reflexivity. Qed.

Lemma clamp_le (x : Qc) : (x <= maxRate)%Qc -> clamp x = x.
Proof.
  intros H. unfold clamp.
  destruct (Qc_ltb maxRate x) eqn:E; trivial.
  apply Qc_ltb_lt in E. now apply Qcle_not_lt in H.
Qed.

Lemma clamp_gt (x : Qc) : (maxRate < x)%Qc -> clamp x = maxRate.
Proof. intros H. unfold clamp. apply Qc_ltb_lt in H. now rewrite H. Qed.

Lemma clamp_max (x : Qc) : (clamp x <= maxRate)%Qc.
Proof.
  unfold clamp. destruct (Qc_ltb maxRate x) eqn:E.
  - apply Qcle_refl.
  - now apply Qc_ltb_ge.
Qed.

(** The growth expression of the source is [growth] of the day count. *)
Lemma growth_expression (k : Z) :
  0 <= k ->
  mul BASE_RATE (Math_pow (add (of_Z 1) DAILY_DECAY) k)
  = Fin (growth (Z.to_nat k)).
Proof.
  intros Hk. unfold Math_pow.
  destruct (k =? 0) eqn:E0.
  - apply Z.eqb_eq in E0. subst k. reflexivity.
  - apply Z.eqb_neq in E0.
    assert (E : (0 <? k) = true) by (apply Z.ltb_lt; lia).
    unfold add, of_Z, DAILY_DECAY, dec. rewrite E. reflexivity.
Qed.

Lemma clamp_expression (x : Qc) :
  (if gt (Fin x) MAX_RATE then MAX_RATE else Fin x) = Fin (clamp x).
Proof.
  unfold clamp, gt, MAX_RATE, dec. fold maxRate.
  destruct (Qc_ltb maxRate x); reflexivity.
Qed.

(** On a non-empty string that parses, [computeRateForDate] is the closed
    form at the parsed time value. *)
Lemma computeRateForDate_schedule
    (engine : string -> option time) (dateStr : string) (d : time) :
  dateStr <> "" ->
  Date_parse engine (dateText dateStr) = Some d ->
  computeRateForDate engine dateStr = Some (Fin (schedule d)).
Proof.
  intros Hne Hd. unfold computeRateForDate, schedule, dateText in *.
  apply String.eqb_neq in Hne. rewrite Hne, Hd. cbv zeta.
  unfold START_DATE, BASE_END_DATE, END_DATE.
  destruct (Z.ltb_spec d 1762819200000) as [H1|H1].
  { destruct (Z.leb_spec d 1764633600000); [reflexivity | lia]. }
  destruct (d >? 1767916800000) eqn:H2.
  { apply Z.gtb_lt in H2.
    destruct (Z.leb_spec d 1764633600000); [lia | reflexivity]. }
  destruct (Z.leb_spec d 1764633600000) as [H3|H3]; [reflexivity|].
  change (1000 * 60 * 60 * 24) with ms_per_day.
  change ((d - 1764633600000) / ms_per_day) with (daysElapsed d).
  assert (Hk : 0 <= daysElapsed d).
  { unfold daysElapsed, BASE_END_DATE, ms_per_day.
    apply Z.div_pos; lia. }
  rewrite (growth_expression _ Hk), clamp_expression. reflexivity.
Qed.

(** What [computeRateForDate] answers is the closed form at some parsed
    time value, or nothing. *)
Lemma computeRateForDate_Some
    (engine : string -> option time) (dateStr : string) (r : number) :
  computeRateForDate engine dateStr = Some r ->
  dateStr <> ""
  /\ exists d, Date_parse engine (dateText dateStr) = Some d
               /\ r = Fin (schedule d).
Proof.
  intros H.
  destruct (String.eqb_spec dateStr "") as [E|E].
  { subst. discriminate H. }
  split; [exact E|].
  destruct (Date_parse engine (dateText dateStr)) as [d|] eqn:Hd.
  - exists d. split; [reflexivity|].
    rewrite (computeRateForDate_schedule engine dateStr d E Hd) in H.
    congruence.
  - unfold computeRateForDate in H. apply String.eqb_neq in E.
    unfold dateText in Hd. rewrite E, Hd in H. discriminate H.
Qed.

Lemma one_le_base : (1 <= 1 + dailyGrowthRate)%Qc.
Proof. unfold Qcle, Qle. vm_compute. discriminate. Qed.

Lemma baseRate_le_maxRate : (baseRate <= maxRate)%Qc.
Proof. unfold Qcle, Qle. vm_compute. discriminate. Qed.

Lemma growth_step (n : nat) : (growth n <= growth (S n))%Qc.
Proof.
  unfold growth, baseRate. rewrite !Qcmult_1_l. simpl Qcpower.
  rewrite <- (Qcmult_1_l ((1 + dailyGrowthRate) ^ n)) at 1.
  apply Qcmult_le_compat_r.
  - exact one_le_base.
  - apply Qcpower_pos.
    apply Qcle_trans with (y := 1%Qc); [| exact one_le_base].
    unfold Qcle, Qle. vm_compute. discriminate.
Qed.

Lemma growth_mono (n m : nat) : (n <= m)%nat -> (growth n <= growth m)%Qc.
Proof.
  induction 1 as [|m _ IH].
  - apply Qcle_refl.
  - apply Qcle_trans with (y := growth m); [exact IH | apply growth_step].
Qed.

Lemma growth_ge_base (n : nat) : (baseRate <= growth n)%Qc.
Proof.
  apply Qcle_trans with (y := growth 0).
  - unfold Qcle, Qle. vm_compute. discriminate.
  - apply growth_mono. lia.
Qed.

Lemma clamp_mono (x y : Qc) : (x <= y)%Qc -> (clamp x <= clamp y)%Qc.
Proof.
  intros H. unfold clamp.
  destruct (Qc_ltb maxRate x) eqn:Ex, (Qc_ltb maxRate y) eqn:Ey.
  - apply Qcle_refl.
  - apply Qc_ltb_lt in Ex. apply Qc_ltb_ge in Ey.
    exfalso. apply (Qcle_not_lt _ _ (Qcle_trans _ _ _ H Ey)). exact Ex.
  - now apply Qc_ltb_ge.
  - exact H.
Qed.

Lemma clamp_ge_base (x : Qc) : (baseRate <= x)%Qc -> (baseRate <= clamp x)%Qc.
Proof.
  intros H. unfold clamp. destruct (Qc_ltb maxRate x).
  - exact baseRate_le_maxRate.
  - exact H.
Qed.

Lemma daysElapsed_mono (d1 d2 : time) :
  d1 <= d2 -> daysElapsed d1 <= daysElapsed d2.
Proof.
  intros H. unfold daysElapsed, ms_per_day.
  apply Z.div_le_mono; lia.
Qed.

(** The day count of a time value of the growth sub-period. *)
Lemma daysElapsed_range (d : time) :
  BASE_END_DATE < d <= END_DATE -> 0 <= daysElapsed d <= 38.
Proof.
  unfold daysElapsed, BASE_END_DATE, END_DATE, ms_per_day. intros H. split.
  - apply Z.div_pos; lia.
  - apply Z.lt_succ_r. apply Z.div_lt_upper_bound; lia.
Qed.

Lemma schedule_bounds (d : time) :
  (baseRate <= schedule d)%Qc /\ (schedule d <= maxRate)%Qc.
Proof.
  unfold schedule.
  destruct (d <=? BASE_END_DATE).
  { split; [apply Qcle_refl | exact baseRate_le_maxRate]. }
  destruct (d >? END_DATE).
  { split; [exact baseRate_le_maxRate | apply Qcle_refl]. }
  split; [apply clamp_ge_base, growth_ge_base | apply clamp_max].
Qed.

Lemma schedule_mono (d1 d2 : time) :
  d1 <= d2 -> (schedule d1 <= schedule d2)%Qc.
Proof.
  intros H. unfold schedule at 1.
  destruct (Z.leb_spec d1 BASE_END_DATE) as [A|A].
  { apply schedule_bounds. }
  destruct (d1 >? END_DATE) eqn:B.
  { apply Z.gtb_lt in B. unfold schedule.
    destruct (Z.leb_spec d2 BASE_END_DATE) as [A2|A2]; [lia|].
    assert (B2 : (d2 >? END_DATE) = true) by (apply Z.gtb_lt; lia).
    rewrite B2. apply Qcle_refl. }
  unfold schedule.
  destruct (Z.leb_spec d2 BASE_END_DATE) as [A2|A2]; [lia|].
  destruct (d2 >? END_DATE).
  { apply clamp_max. }
  apply clamp_mono, growth_mono, Z2Nat.inj_le.
  - apply Z.div_pos; unfold ms_per_day; lia.
  - apply Z.div_pos; unfold ms_per_day; lia.
  - now apply daysElapsed_mono.
Qed.

(** *** The claims about the schedule *)

(** C1, as the code has it: on "2025-12-03", the first day after the
    flat-end date, one whole day has elapsed and [computeRateForDate]
    returns 1.0625 = 1.0000 * 1.0625 ^ 1, whatever the engine. *)
Theorem first_growth_day_rate (engine : string -> option time) :
  Date_parse engine (dateText "2025-12-03") = Some 1764720000000
  /\ daysElapsed 1764720000000 = 1
  /\ computeRateForDate engine "2025-12-03" = Some (dec 10625 10000)
  /\ dec 10625 10000 = Fin (growth 1).
Proof.
  split; [vm_compute; reflexivity|].
  split; [vm_compute; reflexivity|].
  split; js_eval.
Qed.

(** C1, as the specification states it, fails: the rate on "2025-12-03" is
    1.0625 and not the base rate, and the growth exponent is 1 and not 0. *)
Lemma first_growth_day_not_base :
  computeRateForDate strict_engine "2025-12-03" = Some (dec 10625 10000)
  /\ Some (dec 10625 10000) <> Some BASE_RATE
  /\ daysElapsed 1764720000000 <> 0.
Proof.
  split; [js_eval|]. split.
  - intros H. injection H as H. vm_compute in H. discriminate H.
  - vm_compute. discriminate.
Qed.

(** C4: for a valid date strictly after the flat-end date and up to the
    window end date, [computeRateForDate] returns
    baseRate * (1 + dailyGrowthRate) ^ daysElapsed, with daysElapsed the
    whole days since the flat-end date, replaced by the cap when it
    exceeds the cap. *)
Theorem growth_period_rate
    (engine : string -> option time) (dateStr : string) (d : time) :
  dateStr <> "" ->
  Date_parse engine (dateText dateStr) = Some d ->
  BASE_END_DATE < d <= END_DATE ->
  let n := Z.to_nat ((d - BASE_END_DATE) / 86400000) in
  let r := (baseRate * (1 + dailyGrowthRate) ^ n)%Qc in
  computeRateForDate engine dateStr
  = Some (Fin (if Qc_ltb maxRate r then maxRate else r)).
Proof.
  intros Hne Hd [Hlo Hhi] n r.
  rewrite (computeRateForDate_schedule engine dateStr d Hne Hd).
  unfold schedule.
  destruct (Z.leb_spec d BASE_END_DATE); [lia|].
  destruct (d >? END_DATE) eqn:G; [apply Z.gtb_lt in G; lia|].
  reflexivity.
Qed.

Lemma growth_period_rate_witness :
  computeRateForDate strict_engine "2025-12-05"
  = Some (Fin (if Qc_ltb maxRate (baseRate * (1 + dailyGrowthRate) ^ 3)
               then maxRate else (baseRate * (1 + dailyGrowthRate) ^ 3)%Qc)).
Proof.
  refine (growth_period_rate strict_engine "2025-12-05" 1764892800000 _ _ _).
  - apply String.eqb_neq. reflexivity.
  - vm_compute. reflexivity.
  - unfold BASE_END_DATE, END_DATE. lia.
Defined.

(** C5: for a valid date on or before the flat-end date 2025-12-02, the
    dates before the window start 2025-11-11 among them,
    [computeRateForDate] returns the base rate 1.0000. *)
Theorem flat_period_rate
    (engine : string -> option time) (dateStr : string) (d : time) :
  dateStr <> "" ->
  Date_parse engine (dateText dateStr) = Some d ->
  d <= BASE_END_DATE ->
  computeRateForDate engine dateStr = Some BASE_RATE /\ BASE_RATE = dec 10000 10000.
Proof.
  intros Hne Hd H. split.
  - rewrite (computeRateForDate_schedule engine dateStr d Hne Hd).
    unfold schedule. destruct (Z.leb_spec d BASE_END_DATE); [reflexivity | lia].
  - js_eval.
Qed.

Lemma flat_period_rate_witness :
  computeRateForDate strict_engine "2025-12-02" = Some BASE_RATE
  /\ BASE_RATE = dec 10000 10000.
Proof.
  refine (flat_period_rate strict_engine "2025-12-02" 1764633600000 _ _ _).
  - apply String.eqb_neq. reflexivity.
  - vm_compute. reflexivity.
  - unfold BASE_END_DATE. lia.
Defined.

Lemma growth_38_exceeds_cap : (maxRate < growth 38)%Qc.
Proof. apply Qc_ltb_lt. vm_compute. reflexivity. Qed.

(** C6: for a valid date on or after the window end date 2026-01-09,
    [computeRateForDate] returns the cap 10.0115. *)
Theorem after_end_rate
    (engine : string -> option time) (dateStr : string) (d : time) :
  dateStr <> "" ->
  Date_parse engine (dateText dateStr) = Some d ->
  END_DATE <= d ->
  computeRateForDate engine dateStr = Some MAX_RATE
  /\ MAX_RATE = dec 100115 10000.
Proof.
  intros Hne Hd H. split; [|reflexivity].
  rewrite (computeRateForDate_schedule engine dateStr d Hne Hd).
  unfold schedule.
  destruct (Z.leb_spec d BASE_END_DATE) as [A|A].
  { unfold BASE_END_DATE, END_DATE in *. lia. }
  destruct (d >? END_DATE) eqn:G; [reflexivity|].
  assert (d = END_DATE).
  { destruct (Z.gtb_spec d END_DATE); [discriminate | lia]. }
  subst d. change (Z.to_nat (daysElapsed END_DATE)) with 38%nat.
  now rewrite (clamp_gt _ growth_38_exceeds_cap).
Qed.

Lemma after_end_rate_witness :
  computeRateForDate strict_engine "2026-01-09" = Some MAX_RATE
  /\ MAX_RATE = dec 100115 10000.
Proof.
  refine (after_end_rate strict_engine "2026-01-09" 1767916800000 _ _ _).
  - apply String.eqb_neq. reflexivity.
  - vm_compute. reflexivity.
  - unfold END_DATE. lia.
Defined.

(** C7: for valid dates d1 <= d2 the rate of d1 is at most the rate of d2,
    wherever the two dates lie. *)
Theorem rate_monotone
    (engine : string -> option time) (s1 s2 : string) (d1 d2 : time) :
  s1 <> "" -> s2 <> "" ->
  Date_parse engine (dateText s1) = Some d1 ->
  Date_parse engine (dateText s2) = Some d2 ->
  d1 <= d2 ->
  exists r1 r2 : Qc,
    computeRateForDate engine s1 = Some (Fin r1)
    /\ computeRateForDate engine s2 = Some (Fin r2)
    /\ (r1 <= r2)%Qc.
Proof.
  intros N1 N2 P1 P2 H.
  exists (schedule d1), (schedule d2). split; [|split].
  - exact (computeRateForDate_schedule engine s1 d1 N1 P1).
  - exact (computeRateForDate_schedule engine s2 d2 N2 P2).
  - now apply schedule_mono.
Qed.

Lemma rate_monotone_witness :
  exists r1 r2 : Qc,
    computeRateForDate strict_engine "2025-12-01" = Some (Fin r1)
    /\ computeRateForDate strict_engine "2025-12-20" = Some (Fin r2)
    /\ (r1 <= r2)%Qc.
Proof.
  refine (rate_monotone strict_engine "2025-12-01" "2025-12-20"
            1764547200000 1766188800000 _ _ _ _ _).
  - apply String.eqb_neq. reflexivity.
  - apply String.eqb_neq. reflexivity.
  - vm_compute. reflexivity.
  - vm_compute. reflexivity.
  - lia.
Defined.

(** C8: for an unparsable date string, the empty string among them,
    [computeRateForDate] returns [null] and no number, and
    [handleDateChange] leaves the rate field, and with it the points shown,
    as they were. *)
Theorem invalid_date_keeps_rate
    (engine : string -> option time) (dateStr : string) (st : State) :
  dateStr = "" \/ Date_parse engine (dateText dateStr) = None ->
  computeRateForDate engine dateStr = None
  /\ rate (handleDateChange engine dateStr st) = rate st
  /\ render (handleDateChange engine dateStr st) = render st.
Proof.
  intros H.
  assert (E : computeRateForDate engine dateStr = None).
  { unfold computeRateForDate. destruct H as [-> | H]; [reflexivity|].
    destruct (dateStr =? "")%string; [reflexivity|].
    unfold dateText in H. now rewrite H. }
  unfold handleDateChange. rewrite E. repeat split; reflexivity.
Qed.

Lemma invalid_date_keeps_rate_witness :
  computeRateForDate strict_engine "tomorrow" = None
  /\ rate (handleDateChange strict_engine "tomorrow" initialState)
     = rate initialState
  /\ render (handleDateChange strict_engine "tomorrow" initialState)
     = render initialState.
Proof.
  refine (invalid_date_keeps_rate strict_engine "tomorrow" initialState _).
  right. vm_compute. reflexivity.
Defined.

(** *** The claims about the points computation *)

Lemma gt_asym (x y : number) : gt x y = true -> gt y x = false.
Proof.
  destruct x as [|s|a], y as [|s'|b]; simpl; try reflexivity; try discriminate.
  - destruct s, s'; reflexivity || discriminate.
  - destruct s; reflexivity || discriminate.
  - destruct s'; reflexivity || discriminate.
  - intros H. apply Qc_ltb_lt in H. apply Qc_ltb_ge. now apply Qclt_le_weak.
Qed.

Lemma gt_irrefl (x : number) : gt x x = false.
Proof.
  destruct (gt x x) eqn:E; trivial.
  pose proof (gt_asym x x E). congruence.
Qed.

Lemma gt_zero_Fin (a : Qc) : gt (Fin a) (of_Z 0) = Qc_ltb 0 a.
Proof. reflexivity. Qed.

Lemma Qc_pos_neqb (a : Qc) : (0 < a)%Qc -> Qc_eqb a 0 = false.
Proof.
  intros H. destruct (Qc_eqb a 0) eqn:E; trivial.
  apply Qc_eqb_eq in E. subst a.
  exfalso. apply (Qclt_not_le _ _ H). apply Qcle_refl.
Qed.

Lemma Qc_pos_neq (a : Qc) : (0 < a)%Qc -> a <> 0%Qc.
Proof.
  intros H E. subst a. apply (Qclt_not_le _ _ H). apply Qcle_refl.
Qed.

Lemma mul_Fin (a b : Qc) : mul (Fin a) (Fin b) = Fin (a * b).
Proof. reflexivity. Qed.

Lemma div_Fin (k : Z) (r : Qc) :
  Qc_eqb r 0 = false -> div (of_Z k) (Fin r) = Fin (Q2Qc (inject_Z k) / r).
Proof. intros H. unfold div, of_Z. now rewrite H. Qed.





(** C9: when usdAmount is 0, or ratePer10k is 0 or negative, the computation
    returns basePoints = 0, totalPoints = 0 and effectivePerUsd = 0 for
    every bonus; it is a total function and evaluates no division there. *)
Theorem degenerate_points (usd rate bonus : string) :
  let p := HomePage_compute usd rate bonus in
  usdAmount p = of_Z 0 \/ ratePer10k p = of_Z 0
  \/ gt (of_Z 0) (ratePer10k p) = true ->
  basePoints p = of_Z 0 /\ totalPoints p = of_Z 0
  /\ effectivePerUsd p = of_Z 0.
Proof.
  intros p H. subst p. revert H.
  unfold HomePage_compute. cbv zeta.
  set (u := or_else (parseFloat usd) (of_Z 0)).
  set (r := or_else (parseFloat rate) (of_Z 0)).
  destruct (gt u (of_Z 0) && gt r (of_Z 0)) eqn:G; cbn [usdAmount ratePer10k
    bonusX basePoints totalPoints effectivePerUsd]; intros H.
  - apply andb_prop in G. destruct G as [Gu Gr]. exfalso.
    destruct H as [H | [H | H]].
    + rewrite H, gt_irrefl in Gu. discriminate Gu.
    + rewrite H, gt_irrefl in Gr. discriminate Gr.
    + rewrite (gt_asym _ _ H) in Gr. discriminate Gr.
  - repeat split; reflexivity.
Qed.

Lemma degenerate_points_witness :
  let p := HomePage_compute "1000" "-1.5" "2.0" in
  basePoints p = of_Z 0 /\ totalPoints p = of_Z 0
  /\ effectivePerUsd p = of_Z 0.
Proof.
  refine (degenerate_points "1000" "-1.5" "2.0" _).
  right. right. vm_compute. reflexivity.
Defined.

Lemma truthy_false (x : number) : truthy x = false -> x = NaN \/ x = of_Z 0.
Proof.
  destruct x as [|s|q]; simpl; intros H.
  - now left.
  - discriminate H.
  - right. apply negb_false_iff, Qc_eqb_eq in H. subst q.
    apply Fin_Qeq. reflexivity.
Qed.

Lemma or_else_zero (x : number) : x <> NaN -> or_else x (of_Z 0) = x.
Proof.
  intros H. unfold or_else. destruct (truthy x) eqn:T; trivial.
  destruct (truthy_false x T) as [E | E]; [contradiction | now rewrite E].
Qed.

Lemma or_else_nonzero (x d : number) :
  x <> NaN -> x <> of_Z 0 -> or_else x d = x.
Proof.
  intros H0 H1. unfold or_else. destruct (truthy x) eqn:T; trivial.
  destruct (truthy_false x T); contradiction.
Qed.

(** The defaults of the three text inputs: amount or rate text that is
    absent or does not parse gives 0, bonus text that is absent or does not
    parse gives 1; amount and rate text that parses is used at its parsed
    value, and so is bonus text that parses as a number other than zero. *)
Lemma text_defaults (usd rate bonus : string) :
  let p := HomePage_compute usd rate bonus in
  parseFloat "" = NaN
  /\ (parseFloat usd = NaN -> usdAmount p = of_Z 0)
  /\ (parseFloat rate = NaN -> ratePer10k p = of_Z 0)
  /\ (parseFloat bonus = NaN -> bonusX p = of_Z 1)
  /\ (parseFloat usd <> NaN -> usdAmount p = parseFloat usd)
  /\ (parseFloat rate <> NaN -> ratePer10k p = parseFloat rate)
  /\ (parseFloat bonus <> NaN -> parseFloat bonus <> of_Z 0 ->
      bonusX p = parseFloat bonus).
Proof.
  intros p.
  assert (U : usdAmount p = or_else (parseFloat usd) (of_Z 0)).
  { subst p. unfold HomePage_compute. cbv zeta.
    destruct (_ && _); reflexivity. }
  assert (R : ratePer10k p = or_else (parseFloat rate) (of_Z 0)).
  { subst p. unfold HomePage_compute. cbv zeta.
    destruct (_ && _); reflexivity. }
  assert (B : bonusX p = or_else (parseFloat bonus) (of_Z 1)).
  { subst p. unfold HomePage_compute. cbv zeta.
    destruct (_ && _); reflexivity. }
  rewrite U, R, B. clear U R B p.
  split; [reflexivity|].
  split; [intros ->; reflexivity|].
  split; [intros ->; reflexivity|].
  split; [intros ->; reflexivity|].
  split; [apply or_else_zero|].
  split; [apply or_else_zero|].
  apply or_else_nonzero.
Qed.


(** C3 at the bonus text "0": the text parses as the number 0, as the
    amount text "0" and the rate text "0" do, and those two are used at 0;
    the multiplier used for the bonus is 1, so the total points of $1000 at
    the rate 1.0000 are the 10,000,000 base points and not 0. *)
Theorem zero_bonus_text_not_used :
  let p := HomePage_compute "1000" "1.0000" "0" in
  parseFloat "0" = of_Z 0
  /\ usdAmount (HomePage_compute "0" "1.0000" "0") = of_Z 0
  /\ ratePer10k (HomePage_compute "1000" "0" "0") = of_Z 0
  /\ bonusX p = of_Z 1
  /\ bonusX p <> parseFloat "0"
  /\ totalPoints p = of_Z 10000000.
Proof.
  cbv zeta. repeat split; try js_eval.
  intros H. vm_compute in H. discriminate H.
Qed.

(** *** Today's date *)

Lemma iso_days_ok_at (n : nat) (lo day : Z) :
  iso_days_ok n lo = true -> lo <= day < lo + Z.of_nat n ->
  iso_day_ok day = true.
Proof.
  revert lo. induction n as [|n IH]; intros lo H R.
  - lia.
  - cbn [iso_days_ok] in H. apply andb_prop in H. destruct H as [H0 H1].
    destruct (Z.eq_dec day lo) as [->|N]; [exact H0|].
    apply (IH (lo + 1)); [exact H1 | lia].
Qed.

Lemma iso_days_1970_2100 : iso_days_ok (Z.to_nat 47482) 0 = true.
Proof. vm_cast_no_check (eq_refl true). Qed.

(** From 1970 to 2099, the date text that "Use today" builds is the ISO date
    of the current UTC day, and it parses to that day's midnight. *)
Lemma today_text (engine : string -> option time) (now : time) :
  0 <= now < YEAR_2100 ->
  let day := now / ms_per_day in
  slice 0 10 (toISOString now) = isoDate day
  /\ Date_parse engine (dateText (isoDate day)) = Some (day * ms_per_day).
Proof.
  intros R day.
  assert (D : 0 <= day < 0 + Z.of_nat (Z.to_nat 47482)).
  { subst day. unfold YEAR_2100, ms_per_day in *. split.
    - apply Z.div_pos; lia.
    - apply Z.div_lt_upper_bound; lia. }
  pose proof (iso_days_ok_at _ 0 day iso_days_1970_2100 D) as K.
  unfold iso_day_ok in K. unfold toISOString, isoDate, Date_parse in *.
  fold day. destruct (civil_from_day day) as [[y m] d].
  apply andb_prop in K. destruct K as [Y P]. rewrite Y. split.
  - reflexivity.
  - destruct (parse_iso_utc _) as [t|]; [|discriminate P].
    apply Z.eqb_eq in P. now subst t.
Qed.

(** "Use today" always finds a rate: the schedule's rate at the midnight of
    the current UTC day. *)
Lemma use_today_rate (engine : string -> option time) (now : time) :
  0 <= now < YEAR_2100 ->
  computeRateForDate engine (slice 0 10 (toISOString now))
  = Some (Fin (schedule (now / ms_per_day * ms_per_day))).
Proof.
  intros R. destruct (today_text engine now R) as [E P]. rewrite E.
  apply computeRateForDate_schedule; [|exact P].
  unfold isoDate. destruct (civil_from_day _) as [[y m] d].
  cbn [fixed_digits append]. discriminate.
Qed.

(** *** Rounding *)

(** [round_scaled a f] is the integer [n] with
    [n <= a * 10^f + 1/2 < n + 1]. *)
Lemma round_scaled_spec (a : Qc) (f : nat) :
  let n := round_scaled a f in
  let den := Zpos (Qden a) in
  2 * den * n <= 2 * Qnum a * 10 ^ Z.of_nat f + den < 2 * den * (n + 1).
Proof.
  intros n den. subst n. unfold round_scaled. fold den.
  set (x := 2 * Qnum a * 10 ^ Z.of_nat f + den).
  assert (P : 0 < 2 * den) by (subst den; lia).
  pose proof (Z.mul_div_le x (2 * den) P).
  pose proof (Z.mul_succ_div_gt x (2 * den) P).
  lia.
Qed.

(** *** The rate written by the handlers *)

Lemma stored_rounded_growth (n : nat) :
  (n <= 38)%nat -> stored_rounded (clamp (growth n)) = true.
Proof.
  intros H.
  assert (A : forallb (fun n => stored_rounded (clamp (growth n))) (seq 0 39)
              = true) by (vm_compute; reflexivity).
  rewrite forallb_forall in A. apply A, in_seq. lia.
Qed.

Lemma stored_rounded_schedule (d : time) : stored_rounded (schedule d) = true.
Proof.
  unfold schedule.
  destruct (Z.leb_spec d BASE_END_DATE) as [A|A]; [vm_compute; reflexivity|].
  destruct (d >? END_DATE) eqn:B; [vm_compute; reflexivity|].
  apply stored_rounded_growth.
  assert (R : 0 <= daysElapsed d <= 38).
  { apply daysElapsed_range. split; [exact A|].
    destruct (Z.gtb_spec d END_DATE); [discriminate | lia]. }
  lia.
Qed.

(** The state after a handler has set the date to [value]. *)
Lemma handler_stores_rounded
    (engine : string -> option time) (value : string) (st : State)
    (computed : number) :
  computeRateForDate engine value = Some computed ->
  let st' := match computeRateForDate engine value with
             | Some c => setRate (toFixed c 4) (setSacrificeDate value st)
             | None => setSacrificeDate value st
             end in
  rate st' = toFixed computed 4 /\ ratePer10k (render st') = rounded4 computed.
Proof.
  intros H st'. subst st'. rewrite H.
  split; [reflexivity|].
  destruct (computeRateForDate_Some engine value computed H) as [_ [d [_ ->]]].
  unfold render, HomePage_compute. cbv zeta.
  cbn [usd rate bonus setRate setSacrificeDate].
  pose proof (stored_rounded_schedule d) as S.
  unfold stored_rounded in S. apply eqb_eq in S.
  destruct (_ && _); cbn [ratePer10k]; exact S.
Qed.

(** C10: when the date chosen in the date picker, or today's date from the
    "Use today" button, has a schedule rate, the rate field holds that rate
    written with four decimals ([toFixed(4)]), and the points computation
    reads from it the rate rounded to four decimal places; today's date has
    a schedule rate at every time from 1970 to 2099; on "2025-12-04" the
    rate read is 1.1289 and not the schedule's 1.12890625. *)
Theorem handlers_store_rounded_rate
    (engine : string -> option time) (st : State) :
  (forall (value : string) (computed : number),
      computeRateForDate engine value = Some computed ->
      let st' := handleDateChange engine value st in
      rate st' = toFixed computed 4
      /\ ratePer10k (render st') = rounded4 computed)
  /\ (forall (now : time) (computed : number),
      computeRateForDate engine (slice 0 10 (toISOString now)) = Some computed ->
      let st' := handleUseToday engine now st in
      rate st' = toFixed computed 4
      /\ ratePer10k (render st') = rounded4 computed)
  /\ (forall now : time,
      0 <= now < YEAR_2100 ->
      exists computed : number,
        computeRateForDate engine (slice 0 10 (toISOString now))
        = Some computed)
  /\ (let st' := handleDateChange engine "2025-12-04" st in
      computeRateForDate engine "2025-12-04" = Some (dec 112890625 100000000)
      /\ rate st' = "1.1289"
      /\ ratePer10k (render st') = dec 11289 10000
      /\ dec 11289 10000 <> dec 112890625 100000000).
Proof.
  split; [|split; [|split]].
  - intros value computed H.
    exact (handler_stores_rounded engine value st computed H).
  - intros now computed H.
    exact (handler_stores_rounded engine _ st computed H).
  - intros now R. eexists. exact (use_today_rate engine now R).
  - cbv zeta.
    assert (E : computeRateForDate engine "2025-12-04"
                = Some (dec 112890625 100000000)) by js_eval.
    destruct (handler_stores_rounded engine "2025-12-04" st _ E) as [A B].
    split; [exact E|]. split; [|split].
    + unfold handleDateChange. rewrite A. vm_compute. reflexivity.
    + unfold handleDateChange. rewrite B. js_eval.
    + intros H. vm_compute in H. discriminate H.
Qed.

Lemma handlers_store_rounded_rate_witness :
  (let st' := handleDateChange strict_engine "2025-12-04" initialState in
   rate st' = toFixed (dec 112890625 100000000) 4
   /\ ratePer10k (render st') = rounded4 (dec 112890625 100000000))
  /\ (let st' := handleUseToday strict_engine 1767000000000 initialState in
      rate st' = toFixed (Fin (growth 27)) 4
      /\ ratePer10k (render st') = rounded4 (Fin (growth 27))).
Proof.
  split.
  - refine (proj1 (handlers_store_rounded_rate strict_engine initialState)
              "2025-12-04" (dec 112890625 100000000) _).
    js_eval.
  - refine (proj1 (proj2 (handlers_store_rounded_rate strict_engine
                            initialState))
              1767000000000 (Fin (growth 27)) _).
    js_eval.
Defined.

(** ** Further properties of the schedule *)

Lemma growth_S (n : nat) :
  growth (S n) = (growth n * (1 + dailyGrowthRate))%Qc.
Proof. unfold growth. simpl Qcpower. ring. Qed.

Lemma growth_0 : growth 0 = baseRate.
Proof. apply Qc_is_canon. reflexivity. Qed.

Lemma growth_37_below_cap : (growth 37 < maxRate)%Qc.
Proof. apply Qc_ltb_lt. vm_compute. reflexivity. Qed.

Lemma growth_1_above_base : (baseRate < growth 1)%Qc.
Proof. apply Qc_ltb_lt. vm_compute. reflexivity. Qed.

Lemma daysElapsed_day (d : time) : daysElapsed d = d / ms_per_day - 20424.
Proof.
  unfold daysElapsed, BASE_END_DATE, ms_per_day.
  replace (d - 1764633600000) with (d + (- 20424) * 86400000) by lia.
  rewrite Z.div_add by lia. lia.
Qed.

(** Before the end date the cap does not cut: the rate is the growth of the
    day count, which is 0 up to the first midnight after the flat-end
    date. *)
Lemma schedule_unclamped (d : time) :
  BASE_END_DATE <= d < END_DATE ->
  schedule d = growth (Z.to_nat (daysElapsed d))
  /\ 0 <= daysElapsed d <= 37.
Proof.
  intros [Lo Hi].
  assert (R : 0 <= daysElapsed d <= 37).
  { rewrite daysElapsed_day.
    unfold BASE_END_DATE, END_DATE, ms_per_day in *.
    pose proof (Z.div_le_mono 1764633600000 d 86400000 ltac:(lia) Lo) as A.
    change (1764633600000 / 86400000) with 20424 in A.
    assert (B : d / 86400000 < 20462)
      by (apply Z.div_lt_upper_bound; lia).
    lia. }
  split; [|exact R]. unfold schedule.
  destruct (Z.leb_spec d BASE_END_DATE) as [A|A].
  - assert (d = BASE_END_DATE) by lia. subst d.
    change (Z.to_nat (daysElapsed BASE_END_DATE)) with 0%nat.
    now rewrite growth_0.
  - destruct (Z.gtb_spec d END_DATE) as [B|B]; [lia|].
    apply clamp_le. apply Qclt_le_weak.
    apply Qcle_lt_trans with (y := growth 37); [|exact growth_37_below_cap].
    apply growth_mono. lia.
Qed.

Lemma schedule_below_cap (d : time) :
  d < END_DATE -> (schedule d < maxRate)%Qc.
Proof.
  intros Hi. destruct (Z.le_gt_cases BASE_END_DATE d) as [Lo|Lo].
  - destruct (schedule_unclamped d (conj Lo Hi)) as [-> R].
    apply Qcle_lt_trans with (y := growth 37); [|exact growth_37_below_cap].
    apply growth_mono. lia.
  - unfold schedule.
    destruct (Z.leb_spec d BASE_END_DATE); [|lia].
    apply Qc_ltb_lt. vm_compute. reflexivity.
Qed.

Lemma schedule_at_end (d : time) : END_DATE <= d -> schedule d = maxRate.
Proof.
  intros H. unfold schedule.
  destruct (Z.leb_spec d BASE_END_DATE) as [A|A].
  { unfold BASE_END_DATE, END_DATE in *. lia. }
  destruct (Z.gtb_spec d END_DATE) as [B|B]; [reflexivity|].
  assert (d = END_DATE) by lia. subst d.
  change (Z.to_nat (daysElapsed END_DATE)) with 38%nat.
  exact (clamp_gt _ growth_38_exceeds_cap).
Qed.

Lemma schedule_flat (d : time) :
  d < BASE_END_DATE + ms_per_day -> schedule d = baseRate.
Proof.
  intros H. destruct (Z.le_gt_cases BASE_END_DATE d) as [Lo|Lo].
  - assert (Hi : d < END_DATE)
      by (unfold BASE_END_DATE, END_DATE, ms_per_day in *; lia).
    destruct (schedule_unclamped d (conj Lo Hi)) as [-> R].
    assert (E : daysElapsed d = 0).
    { unfold daysElapsed. apply Z.div_small. lia. }
    rewrite E. exact growth_0.
  - unfold schedule. destruct (Z.leb_spec d BASE_END_DATE); [reflexivity|lia].
Qed.

Lemma schedule_above_base (d : time) :
  BASE_END_DATE + ms_per_day <= d -> (baseRate < schedule d)%Qc.
Proof.
  intros H.
  apply Qclt_le_trans with (y := schedule (BASE_END_DATE + ms_per_day)).
  - assert (E : schedule (BASE_END_DATE + ms_per_day) = growth 1).
    { apply schedule_unclamped.
      unfold BASE_END_DATE, END_DATE, ms_per_day. lia. }
    rewrite E. exact growth_1_above_base.
  - now apply schedule_mono.
Qed.

(** The rate of a time value is the rate of the midnight that begins its
    UTC day. *)
Lemma schedule_midnight (d : time) :
  schedule (d / ms_per_day * ms_per_day) = schedule d.
Proof.
  set (m := d / ms_per_day * ms_per_day).
  assert (M : m <= d < m + ms_per_day).
  { subst m. unfold ms_per_day.
    pose proof (Z.mul_div_le d 86400000 ltac:(lia)).
    pose proof (Z.mul_succ_div_gt d 86400000 ltac:(lia)). lia. }
  assert (K : m / ms_per_day = d / ms_per_day).
  { subst m. apply Z.div_mul. unfold ms_per_day. lia. }
  destruct (Z.lt_ge_cases d (BASE_END_DATE + ms_per_day)) as [A|A].
  { rewrite !schedule_flat; [reflexivity | exact A | lia]. }
  destruct (Z.le_gt_cases END_DATE d) as [B|B].
  { rewrite (schedule_at_end d B). apply schedule_at_end.
    subst m. unfold END_DATE, ms_per_day in *.
    pose proof (Z.div_le_mono _ _ 86400000 ltac:(lia) B) as C.
    change (1767916800000 / 86400000) with 20462 in C. lia. }
  assert (Am : BASE_END_DATE <= m).
  { subst m. unfold BASE_END_DATE, ms_per_day in *.
    pose proof (Z.div_le_mono _ _ 86400000 ltac:(lia) A) as C.
    change ((1764633600000 + 86400000) / 86400000) with 20425 in C. lia. }
  destruct (schedule_unclamped d) as [-> _]; [lia|].
  destruct (schedule_unclamped m) as [-> _]; [lia|].
  now rewrite !daysElapsed_day, K.
Qed.

(** X1: whatever number [computeRateForDate] returns lies between the base
    rate 1.0000 and the cap 10.0115. *)
Theorem rate_in_range
    (engine : string -> option time) (dateStr : string) (r : number) :
  computeRateForDate engine dateStr = Some r ->
  exists q : Qc,
    r = Fin q /\ (Q2Qc 1 <= q)%Qc /\ (q <= Q2Qc (100115 # 10000))%Qc.
Proof.
  intros H.
  destruct (computeRateForDate_Some engine dateStr r H) as [_ [d [_ ->]]].
  exists (schedule d). split; [reflexivity|]. exact (schedule_bounds d).
Qed.

Lemma rate_in_range_witness :
  exists q : Qc,
    Fin (growth 17) = Fin q
    /\ (Q2Qc 1 <= q)%Qc /\ (q <= Q2Qc (100115 # 10000))%Qc.
Proof.
  refine (rate_in_range strict_engine "2025-12-19" (Fin (growth 17)) _).
  js_eval.
Defined.

(** X2: the time of day does not matter: two parsed time values of the same
    UTC day get the same rate. *)
Theorem rate_same_utc_day
    (engine : string -> option time) (s1 s2 : string) (d1 d2 : time) :
  s1 <> "" -> s2 <> "" ->
  Date_parse engine (dateText s1) = Some d1 ->
  Date_parse engine (dateText s2) = Some d2 ->
  d1 / 86400000 = d2 / 86400000 ->
  computeRateForDate engine s1 = computeRateForDate engine s2.
Proof.
  intros N1 N2 P1 P2 E.
  rewrite (computeRateForDate_schedule engine s1 d1 N1 P1).
  rewrite (computeRateForDate_schedule engine s2 d2 N2 P2).
  rewrite <- (schedule_midnight d1), <- (schedule_midnight d2).
  unfold ms_per_day. now rewrite E.
Qed.

Lemma rate_same_utc_day_witness :
  computeRateForDate noon_engine "noon 2025-12-10"
  = computeRateForDate noon_engine "2025-12-10".
Proof.
  refine (rate_same_utc_day noon_engine "noon 2025-12-10" "2025-12-10"
            1765368000000 1765324800000 _ _ _ _ _).
  - apply String.eqb_neq. reflexivity.
  - apply String.eqb_neq. reflexivity.
  - vm_compute. reflexivity.
  - vm_compute. reflexivity.
  - vm_compute. reflexivity.
Defined.

Lemma growth_strict (n : nat) : (growth n < growth (S n))%Qc.
Proof.
  rewrite growth_S.
  assert (P : (0 < growth n)%Qc).
  { apply Qclt_le_trans with (y := baseRate); [|apply growth_ge_base].
    apply Qc_ltb_lt. reflexivity. }
  assert (B : (1 < 1 + dailyGrowthRate)%Qc)
    by (apply Qc_ltb_lt; vm_compute; reflexivity).
  pose proof (Qcmult_lt_compat_r _ _ _ P B) as M.
  rewrite Qcmult_1_l in M. now rewrite (Qcmult_comm (growth n)).
Qed.

(** X3: from the flat-end date 2025-12-02 to the end date 2026-01-09 the
    rate rises strictly from each day to the next: a date one day later
    has a strictly greater rate, the last step being the one onto the
    cap. *)
Theorem rate_daily_increase
    (engine : string -> option time) (s1 s2 : string) (d : time) :
  s1 <> "" -> s2 <> "" ->
  Date_parse engine (dateText s1) = Some d ->
  Date_parse engine (dateText s2) = Some (d + 86400000) ->
  BASE_END_DATE <= d -> d + 86400000 <= END_DATE ->
  exists q1 q2 : Qc,
    computeRateForDate engine s1 = Some (Fin q1)
    /\ computeRateForDate engine s2 = Some (Fin q2)
    /\ (q1 < q2)%Qc.
Proof.
  intros N1 N2 P1 P2 Lo Hi.
  rewrite (computeRateForDate_schedule engine s1 d N1 P1).
  rewrite (computeRateForDate_schedule engine s2 _ N2 P2).
  exists (schedule d), (schedule (d + 86400000)).
  split; [reflexivity|]. split; [reflexivity|].
  destruct (Z.lt_ge_cases (d + 86400000) END_DATE) as [A|A].
  - destruct (schedule_unclamped d) as [-> R]; [lia|].
    destruct (schedule_unclamped (d + 86400000)) as [-> R']; [lia|].
    assert (E : daysElapsed (d + 86400000) = daysElapsed d + 1).
    { rewrite !daysElapsed_day. unfold ms_per_day.
      replace (d + 86400000) with (d + 1 * 86400000) by lia.
      rewrite Z.div_add by lia. lia. }
    rewrite E, Z2Nat.inj_add, Nat.add_1_r by lia.
    apply growth_strict.
  - rewrite (schedule_at_end _ A). apply schedule_below_cap. lia.
Qed.

Lemma rate_daily_increase_witness :
  exists q1 q2 : Qc,
    computeRateForDate strict_engine "2026-01-08" = Some (Fin q1)
    /\ computeRateForDate strict_engine "2026-01-09" = Some (Fin q2)
    /\ (q1 < q2)%Qc.
Proof.
  refine (rate_daily_increase strict_engine "2026-01-08" "2026-01-09"
            1767830400000 _ _ _ _ _ _).
  - apply String.eqb_neq. reflexivity.
  - apply String.eqb_neq. reflexivity.
  - vm_compute. reflexivity.
  - vm_compute. reflexivity.
  - unfold BASE_END_DATE. lia.
  - unfold END_DATE. lia.
Defined.

(** X4: a valid date has the base rate exactly when it is before
    2025-12-03T00:00Z, and the cap exactly when it is 2026-01-09T00:00Z or
    later. *)
Theorem base_and_cap_exactly
    (engine : string -> option time) (dateStr : string) (d : time) :
  dateStr <> "" ->
  Date_parse engine (dateText dateStr) = Some d ->
  (computeRateForDate engine dateStr = Some BASE_RATE <-> d < 1764720000000)
  /\ (computeRateForDate engine dateStr = Some MAX_RATE
      <-> 1767916800000 <= d).
Proof.
  intros N P. rewrite (computeRateForDate_schedule engine dateStr d N P).
  split; split; intros H.
  - destruct (Z.lt_ge_cases d 1764720000000) as [A|A]; [exact A|].
    exfalso. pose proof (schedule_above_base d A) as L.
    injection H as H. apply (f_equal this) in H. simpl in H.
    apply Qclt_not_le in L. apply L. unfold Qcle. rewrite H.
    apply Qle_refl.
  - now rewrite (schedule_flat d H).
  - destruct (Z.lt_ge_cases d 1767916800000) as [A|A]; [|exact A].
    exfalso. pose proof (schedule_below_cap d A) as L.
    injection H as H. apply (f_equal this) in H.
    apply Qclt_not_le in L. apply L. unfold Qcle. rewrite H.
    apply Qle_refl.
  - now rewrite (schedule_at_end d H).
Qed.

Lemma base_and_cap_exactly_witness :
  (computeRateForDate strict_engine "2026-01-08" = Some BASE_RATE
   <-> 1767830400000 < 1764720000000)
  /\ (computeRateForDate strict_engine "2026-01-08" = Some MAX_RATE
      <-> 1767916800000 <= 1767830400000).
Proof.
  refine (base_and_cap_exactly strict_engine "2026-01-08" 1767830400000 _ _).
  - apply String.eqb_neq. reflexivity.
  - vm_compute. reflexivity.
Defined.

(** ** Further properties of the points computation *)

(** The computation on the three numbers read from the inputs. *)
Lemma compute_guarded (usd rate bonus : string) :
  let u := or_else (parseFloat usd) (of_Z 0) in
  let r := or_else (parseFloat rate) (of_Z 0) in
  let b := or_else (parseFloat bonus) (of_Z 1) in
  HomePage_compute usd rate bonus
  = if gt u (of_Z 0) && gt r (of_Z 0)
    then mkPoints u r b (mul u (div (of_Z 10000) r))
           (mul (mul u (div (of_Z 10000) r)) b)
           (div (mul (mul u (div (of_Z 10000) r)) b) u)
    else mkPoints u r b (of_Z 0) (of_Z 0) (of_Z 0).
Proof. reflexivity. Qed.

Lemma inputs_read (usd rate bonus : string) :
  let p := HomePage_compute usd rate bonus in
  usdAmount p = or_else (parseFloat usd) (of_Z 0)
  /\ ratePer10k p = or_else (parseFloat rate) (of_Z 0)
  /\ bonusX p = or_else (parseFloat bonus) (of_Z 1).
Proof.
  intros p. subst p. rewrite compute_guarded. cbv zeta.
  destruct (_ && _); repeat split; reflexivity.
Qed.

(** The base points for a positive finite amount and rate. *)
Lemma base_positive (usd rate bonus : string) (a r : Qc) :
  let p := HomePage_compute usd rate bonus in
  usdAmount p = Fin a -> ratePer10k p = Fin r ->
  (0 < a)%Qc -> (0 < r)%Qc ->
  basePoints p = Fin (a * (Q2Qc 10000 / r))
  /\ totalPoints p = mul (Fin (a * (Q2Qc 10000 / r))) (bonusX p)
  /\ effectivePerUsd p
     = div (mul (Fin (a * (Q2Qc 10000 / r))) (bonusX p)) (Fin a).
Proof.
  intros p. destruct (inputs_read usd rate bonus) as [U [R B]].
  fold p in U, R, B. rewrite U, R. intros Ha Hr Pa Pr.
  subst p. rewrite compute_guarded. cbv zeta. rewrite Ha, Hr.
  rewrite !gt_zero_Fin.
  apply Qc_ltb_lt in Pa as Ga. apply Qc_ltb_lt in Pr as Gr.
  rewrite Ga, Gr.
  cbn [andb basePoints totalPoints effectivePerUsd bonusX].
  rewrite (div_Fin _ r (Qc_pos_neqb r Pr)), mul_Fin. repeat split.
Qed.

(** The three results when the guard fails. *)
Lemma base_degenerate (usd rate bonus : string) :
  let p := HomePage_compute usd rate bonus in
  gt (usdAmount p) (of_Z 0) = false \/ gt (ratePer10k p) (of_Z 0) = false ->
  basePoints p = of_Z 0 /\ totalPoints p = of_Z 0
  /\ effectivePerUsd p = of_Z 0.
Proof.
  intros p. destruct (inputs_read usd rate bonus) as [U [R _]].
  fold p in U, R. rewrite U, R. intros H.
  subst p. rewrite compute_guarded. cbv zeta.
  destruct (_ && _) eqn:G.
  - apply andb_prop in G. destruct G as [G1 G2].
    destruct H as [H|H]; congruence.
  - repeat split.
Qed.

(** ** Properties of the texts shown *)

Lemma bonus_truthy (usd rate bonus : string) :
  truthy (bonusX (HomePage_compute usd rate bonus)) = true.
Proof.
  destruct (inputs_read usd rate bonus) as [_ [_ B]]. rewrite B.
  unfold or_else. destruct (truthy (parseFloat bonus)) eqn:T.
  - exact T.
  - reflexivity.
Qed.

Lemma append_x_not_dash (s : string) : s ++ "x" <> "-".
Proof.
  destruct s as [|c s]; simpl; [discriminate|].
  intros H. injection H as _ H. destruct s; discriminate H.
Qed.

(** X8: when the amount or the rate read is not greater than 0 (zero,
    negative, or text that does not parse), the base points, the total
    points and the effective points per dollar are all shown as "-",
    whatever the locale. *)
Theorem degenerate_results_show_dash
    (toLocaleString : number -> string) (usd rate bonus : string) :
  let p := HomePage_compute usd rate bonus in
  gt (usdAmount p) (of_Z 0) = false \/ gt (ratePer10k p) (of_Z 0) = false ->
  basePointsText toLocaleString p = "-"
  /\ totalPointsText toLocaleString p = "-"
  /\ effectivePerUsdText toLocaleString p = "-".
Proof.
  intros p H.
  destruct (base_degenerate usd rate bonus H) as [E1 [E2 E3]].
  fold p in E1, E2, E3.
  unfold basePointsText, totalPointsText, effectivePerUsdText.
  rewrite E1, E2, E3. repeat split.
Qed.

Lemma degenerate_results_show_dash_witness :
  let p := HomePage_compute "abc" "1.0000" "2.0" in
  basePointsText (fun _ => "?") p = "-"
  /\ totalPointsText (fun _ => "?") p = "-"
  /\ effectivePerUsdText (fun _ => "?") p = "-".
Proof.
  refine (degenerate_results_show_dash (fun _ => "?") "abc" "1.0000" "2.0" _).
  left. vm_compute. reflexivity.
Defined.

(** X9: the bonus read is never NaN and never zero, so the "Bonus Applied"
    text is always the formatted bonus followed by "x": its "-" branch is
    never taken. *)
Theorem bonus_text_never_dash
    (toLocaleString : number -> string) (usd rate bonus : string) :
  let p := HomePage_compute usd rate bonus in
  bonusX p <> NaN /\ bonusX p <> of_Z 0
  /\ bonusText toLocaleString p = formatNumber toLocaleString (bonusX p) ++ "x"
  /\ bonusText toLocaleString p <> "-".
Proof.
  intros p. pose proof (bonus_truthy usd rate bonus) as T. fold p in T.
  assert (E : bonusText toLocaleString p
              = formatNumber toLocaleString (bonusX p) ++ "x")
    by (unfold bonusText; now rewrite T).
  repeat split.
  - intros H. rewrite H in T. discriminate T.
  - intros H. rewrite H in T. discriminate T.
  - exact E.
  - rewrite E. apply append_x_not_dash.
Qed.

Lemma Qcopp_lt (p q : Qc) : (p < q)%Qc -> (- q < - p)%Qc.
Proof.
  intros H. unfold Qclt in *. unfold Qcopp, Q2Qc. cbn [this].
  rewrite !Qred_correct. now apply Qopp_lt_compat.
Qed.

Lemma round_scaled_small (a : Qc) :
  (0 <= a)%Qc -> (a < Q2Qc (1 # 20000))%Qc -> round_scaled a 4 = 0.
Proof.
  intros Lo Hi. unfold round_scaled.
  change (10 ^ Z.of_nat 4) with 10000.
  unfold Qcle, Qle in Lo. unfold Qclt, Qlt in Hi.
  change (this 0%Qc) with (0 # 1)%Q in Lo.
  change (this (Q2Qc (1 # 20000))) with (1 # 20000)%Q in Hi.
  cbn [Qnum Qden] in Lo, Hi.
  apply Z.div_small. lia.
Qed.

(** X10: [formatNumber] writes a non-zero number smaller than 0.00005 in
    magnitude as "0.0000", with a "-" in front when it is negative,
    whatever the locale; the number 0 is written "0". *)
Theorem formatNumber_tiny (toLocaleString : number -> string) (q : Qc) :
  q <> 0%Qc ->
  (Q2Qc (-1 # 20000) < q)%Qc -> (q < Q2Qc (1 # 20000))%Qc ->
  formatNumber toLocaleString (Fin q)
  = (if Qc_ltb q 0 then "-0.0000" else "0.0000")
  /\ formatNumber toLocaleString (of_Z 0) = "0".
Proof.
  intros Nz Lo Hi. split; [|reflexivity].
  unfold formatNumber. cbn [isFinite negb].
  assert (E0 : eqb (Fin q) (of_Z 0) = false).
  { destruct (eqb (Fin q) (of_Z 0)) eqn:E; trivial.
    apply eqb_eq in E. exfalso. apply Nz.
    change (of_Z 0) with (Fin 0%Qc) in E. congruence. }
  rewrite E0.
  set (a := if Qc_ltb q 0 then (- q)%Qc else q).
  assert (A : (0 <= a)%Qc /\ (a < Q2Qc (1 # 20000))%Qc).
  { subst a. destruct (Qc_ltb q 0) eqn:S.
    - apply Qc_ltb_lt in S. split.
      + apply Qclt_le_weak. apply Qcopp_lt in S.
        replace (- 0)%Qc with 0%Qc in S
          by (apply Qc_is_canon; reflexivity).
        exact S.
      + apply Qcopp_lt in Lo.
        replace (- Q2Qc (-1 # 20000))%Qc with (Q2Qc (1 # 20000)) in Lo
          by (apply Qc_is_canon; reflexivity).
        exact Lo.
    - apply Qc_ltb_ge in S. split; assumption. }
  destruct A as [A0 A1].
  assert (L : lt (Math_abs (Fin q)) (of_Z 1) = true).
  { unfold lt, Math_abs, gt, of_Z. fold a. apply Qc_ltb_lt.
    apply Qclt_trans with (y := Q2Qc (1 # 20000)); [exact A1|].
    apply Qc_ltb_lt. vm_compute. reflexivity. }
  rewrite L. unfold toFixed. fold a. cbv zeta.
  rewrite (round_scaled_small a A0 A1).
  destruct (Qc_ltb q 0); reflexivity.
Qed.

Lemma formatNumber_tiny_witness :
  formatNumber (fun _ => "?") (Fin (Q2Qc (-3 # 100000)))
  = (if Qc_ltb (Q2Qc (-3 # 100000)) 0 then "-0.0000" else "0.0000")
  /\ formatNumber (fun _ => "?") (of_Z 0) = "0".
Proof.
  refine (formatNumber_tiny (fun _ => "?") (Q2Qc (-3 # 100000)) _ _ _).
  - intros H. apply (f_equal this) in H. vm_compute in H. discriminate H.
  - apply Qc_ltb_lt. vm_compute. reflexivity.
  - apply Qc_ltb_lt. vm_compute. reflexivity.
Defined.

(** ** Properties of the handlers *)

Lemma handleDateChange_valid
    (engine : string -> option time) (v : string) (st : State) (r : number) :
  computeRateForDate engine v = Some r ->
  handleDateChange engine v st
  = {| usd := usd st; rate := toFixed r 4; bonus := bonus st;
       sacrificeDate := v |}.
Proof. intros H. unfold handleDateChange. now rewrite H. Qed.

Lemma handleUseToday_as_date_change
    (engine : string -> option time) (now : time) (st : State) :
  handleUseToday engine now st
  = handleDateChange engine (slice 0 10 (toISOString now)) st.
Proof. reflexivity. Qed.

(** X11: choosing the same date twice is the same as choosing it once, and a
    date that has a schedule rate wipes out what an earlier date choice
    did. *)
Theorem date_change_absorbs
    (engine : string -> option time) (v1 v2 : string) (st : State) :
  handleDateChange engine v2 (handleDateChange engine v2 st)
  = handleDateChange engine v2 st
  /\ (computeRateForDate engine v2 <> None ->
      handleDateChange engine v2 (handleDateChange engine v1 st)
      = handleDateChange engine v2 st).
Proof.
  split.
  - unfold handleDateChange.
    destruct (computeRateForDate engine v2); reflexivity.
  - intros H. unfold handleDateChange.
    destruct (computeRateForDate engine v2) as [r|]; [|contradiction].
    destruct (computeRateForDate engine v1); reflexivity.
Qed.

Lemma date_change_absorbs_witness :
  handleDateChange strict_engine "2025-12-25"
    (handleDateChange strict_engine "2025-12-25" initialState)
  = handleDateChange strict_engine "2025-12-25" initialState
  /\ (computeRateForDate strict_engine "2025-12-25" <> None ->
      handleDateChange strict_engine "2025-12-25"
        (handleDateChange strict_engine "2026-01-01" initialState)
      = handleDateChange strict_engine "2025-12-25" initialState).
Proof.
  exact (date_change_absorbs strict_engine "2026-01-01" "2025-12-25"
           initialState).
Defined.

Lemma handle_keeps_rate_following
    (engine : string -> option time) (ev : event) (st : State) :
  keeps_rate_auto ev = true ->
  rate_follows_date engine st ->
  rate_follows_date engine (handle engine ev st).
Proof.
  intros K I. destruct ev as [v|v|now|v|v]; try discriminate K;
    cbn [handle].
  - exact I.
  - unfold rate_follows_date, handleDateChange.
    destruct (computeRateForDate engine v) as [c|] eqn:E;
      cbn [sacrificeDate rate setRate setSacrificeDate]; rewrite E;
      reflexivity || exact Logic.I.
  - rewrite handleUseToday_as_date_change.
    unfold rate_follows_date, handleDateChange.
    set (iso := slice 0 10 (toISOString now)).
    destruct (computeRateForDate engine iso) as [c|] eqn:E;
      cbn [sacrificeDate rate setRate setSacrificeDate]; rewrite E;
      reflexivity || exact Logic.I.
  - exact I.
Qed.

Lemma initial_rate_follows (engine : string -> option time) :
  rate_follows_date engine initialState.
Proof.
  unfold rate_follows_date. cbn [sacrificeDate initialState].
  assert (E : computeRateForDate engine "2025-11-11" = Some BASE_RATE)
    by js_eval.
  rewrite E. reflexivity.
Qed.

(** X12: from the initial page, as long as the rate input is not edited by
    hand, every sequence of amount, bonus, date and "Use today" events
    leaves the rate field equal to the schedule rate of the date field
    written with four decimals, whenever the date field has a schedule
    rate. *)
Theorem rate_follows_date_invariant
    (engine : string -> option time) (evs : list event) :
  forallb keeps_rate_auto evs = true ->
  rate_follows_date engine (run engine evs initialState).
Proof.
  intros K. unfold run.
  assert (G : forall st, rate_follows_date engine st ->
                         rate_follows_date engine
                           (fold_left (fun st ev => handle engine ev st)
                              evs st)).
  { induction evs as [|ev evs IH]; intros st I; [exact I|].
    cbn [forallb] in K. apply andb_prop in K. destruct K as [K0 K1].
    cbn [fold_left]. apply (IH K1).
    now apply handle_keeps_rate_following. }
  apply G, initial_rate_follows.
Qed.

Lemma rate_follows_date_invariant_witness :
  rate_follows_date strict_engine
    (run strict_engine
       [DateChange "2025-12-24"; UsdChange "250"; DateChange "soon";
        UseToday 1766000000000; BonusChange "1.5"]
       initialState).
Proof.
  refine (rate_follows_date_invariant strict_engine _ _).
  reflexivity.
Defined.

(** X13: at any instant from 1970 to 2099, "Use today" puts the current UTC
    date into the date field (its text parses to the midnight that began
    the current UTC day), puts that day's schedule rate with four decimals
    into the rate field, and leaves the amount and the bonus alone. *)
Theorem use_today_sets_utc_date
    (engine : string -> option time) (now : time) (st : State) :
  0 <= now < YEAR_2100 ->
  let st' := handleUseToday engine now st in
  Date_parse engine (dateText (sacrificeDate st'))
  = Some (now / 86400000 * 86400000)
  /\ rate st' = toFixed (Fin (schedule now)) 4
  /\ usd st' = usd st /\ bonus st' = bonus st.
Proof.
  intros R st'.
  pose proof (use_today_rate engine now R) as C.
  destruct (today_text engine now R) as [E P].
  rewrite schedule_midnight in C.
  subst st'. rewrite handleUseToday_as_date_change.
  rewrite (handleDateChange_valid engine _ st _ C).
  cbn [sacrificeDate rate usd bonus]. rewrite E.
  repeat split. exact P.
Qed.

Lemma use_today_sets_utc_date_witness :
  let st' := handleUseToday strict_engine 1766000000000 initialState in
  Date_parse strict_engine (dateText (sacrificeDate st'))
  = Some (1766000000000 / 86400000 * 86400000)
  /\ rate st' = toFixed (Fin (schedule 1766000000000)) 4
  /\ usd st' = usd initialState /\ bonus st' = bonus initialState.
Proof.
  refine (use_today_sets_utc_date strict_engine 1766000000000 initialState _).
  unfold YEAR_2100. lia.
Defined.

(** ** The rate read back and the points over time *)

Lemma round_scaled_mono (a b : Qc) (f : nat) :
  (a <= b)%Qc -> round_scaled a f <= round_scaled b f.
Proof.
  intros H. unfold Qcle, Qle in H.
  pose proof (round_scaled_spec a f) as A.
  pose proof (round_scaled_spec b f) as B. cbv zeta in A, B.
  set (na := round_scaled a f) in *. set (nb := round_scaled b f) in *.
  set (p := 10 ^ Z.of_nat f) in *.
  assert (P : 0 <= p) by (subst p; apply Z.pow_nonneg; lia).
  set (x := Qnum a) in *. set (y := Qnum b) in *.
  set (da := Zpos (Qden a)) in *. set (db := Zpos (Qden b)) in *.
  assert (Da : 0 < da) by (subst da; lia).
  assert (Db : 0 < db) by (subst db; lia).
  destruct (Z.le_gt_cases na nb) as [L|L]; [exact L|exfalso].
  assert (S1 : 2 * da * db * (nb + 1) <= 2 * da * db * na) by nia.
  assert (S2 : 2 * da * db * na <= db * (2 * x * p + da)) by nia.
  assert (S3 : db * (2 * x * p + da) <= da * (2 * y * p + db)) by nia.
  assert (S4 : da * (2 * y * p + db) < da * (2 * db * (nb + 1))) by nia.
  nia.
Qed.

Lemma round4_mono (a b : Qc) : (a <= b)%Qc -> (round4 a <= round4 b)%Qc.
Proof.
  intros H. apply (round_scaled_mono a b 4) in H.
  unfold round4, Qcle, Q2Qc. cbn [this]. rewrite !Qred_correct.
  unfold Qle. cbn [Qnum Qden]. lia.
Qed.

Lemma round4_base : round4 baseRate = baseRate.
Proof. apply Qc_is_canon. reflexivity. Qed.

Lemma round4_cap : round4 maxRate = maxRate.
Proof. apply Qc_is_canon. reflexivity. Qed.

(** The rate the computation reads after a date with a schedule rate has
    been chosen. *)
Lemma rate_after_date_change
    (engine : string -> option time) (v : string) (d : time) (st : State) :
  v <> "" -> Date_parse engine (dateText v) = Some d ->
  let p := render (handleDateChange engine v st) in
  ratePer10k p = Fin (round4 (schedule d))
  /\ usdAmount p = usdAmount (render st)
  /\ bonusX p = bonusX (render st).
Proof.
  intros N P p.
  pose proof (computeRateForDate_schedule engine v d N P) as C.
  destruct (handler_stores_rounded engine v st _ C) as [_ R].
  cbv zeta in R. split; [exact R|].
  subst p. rewrite (handleDateChange_valid engine v st _ C).
  unfold render. cbn [usd rate bonus].
  destruct (inputs_read (usd st) (toFixed (Fin (schedule d)) 4) (bonus st))
    as [U [_ B]].
  destruct (inputs_read (usd st) (rate st) (bonus st)) as [U' [_ B']].
  rewrite U, U', B, B'. split; reflexivity.
Qed.

(** X14: after a date with a schedule rate has been chosen, the rate the
    points computation reads is between 1.0000 and 10.0115: it is never
    zero or negative, so the rate never causes the zero results. *)
Theorem rate_read_in_range
    (engine : string -> option time) (v : string) (d : time) (st : State) :
  v <> "" -> Date_parse engine (dateText v) = Some d ->
  exists q : Qc,
    ratePer10k (render (handleDateChange engine v st)) = Fin q
    /\ (Q2Qc 1 <= q)%Qc /\ (q <= Q2Qc (100115 # 10000))%Qc
    /\ gt (Fin q) (of_Z 0) = true.
Proof.
  intros N P.
  destruct (rate_after_date_change engine v d st N P) as [R _].
  exists (round4 (schedule d)). split; [exact R|].
  destruct (schedule_bounds d) as [Lo Hi].
  apply round4_mono in Lo. apply round4_mono in Hi.
  rewrite round4_base in Lo. rewrite round4_cap in Hi.
  split; [exact Lo|]. split; [exact Hi|].
  rewrite gt_zero_Fin. apply Qc_ltb_lt.
  apply Qclt_le_trans with (y := baseRate); [|exact Lo].
  apply Qc_ltb_lt. reflexivity.
Qed.

Lemma rate_read_in_range_witness :
  exists q : Qc,
    ratePer10k (render (handleDateChange strict_engine "2025-12-31"
                          initialState)) = Fin q
    /\ (Q2Qc 1 <= q)%Qc /\ (q <= Q2Qc (100115 # 10000))%Qc
    /\ gt (Fin q) (of_Z 0) = true.
Proof.
  refine (rate_read_in_range strict_engine "2025-12-31" 1767139200000
            initialState _ _).
  - apply String.eqb_neq. reflexivity.
  - vm_compute. reflexivity.
Defined.

Lemma Qcdiv_antitone (k r1 r2 : Qc) :
  (0 <= k)%Qc -> (0 < r1)%Qc -> (r1 <= r2)%Qc -> (k / r2 <= k / r1)%Qc.
Proof.
  intros K P1 L.
  assert (P2 : (0 < r2)%Qc)
    by (apply Qclt_le_trans with (y := r1); assumption).
  pose proof (Qc_pos_neq r1 P1) as N1. pose proof (Qc_pos_neq r2 P2) as N2.
  assert (P12 : (0 < r1 * r2)%Qc).
  { pose proof (Qcmult_lt_compat_r 0 r1 r2 P2 P1) as M.
    now rewrite Qcmult_0_l in M. }
  apply (Qcmult_lt_0_le_reg_r _ _ (r1 * r2) P12).
  replace (k / r2 * (r1 * r2))%Qc with (r1 * k)%Qc by (field; exact N2).
  replace (k / r1 * (r1 * r2))%Qc with (r2 * k)%Qc by (field; exact N1).
  now apply Qcmult_le_compat_r.
Qed.

(** X15: choosing a later date never gives more base points: for valid dates
    d1 <= d2 and the same finite amount, the base points shown after
    choosing d2 are at most those after choosing d1. *)
Theorem later_date_no_more_points
    (engine : string -> option time) (v1 v2 : string) (d1 d2 : time)
    (st : State) (a : Qc) :
  v1 <> "" -> v2 <> "" ->
  Date_parse engine (dateText v1) = Some d1 ->
  Date_parse engine (dateText v2) = Some d2 ->
  d1 <= d2 ->
  usdAmount (render st) = Fin a ->
  exists b1 b2 : Qc,
    basePoints (render (handleDateChange engine v1 st)) = Fin b1
    /\ basePoints (render (handleDateChange engine v2 st)) = Fin b2
    /\ (b2 <= b1)%Qc.
Proof.
  intros N1 N2 P1 P2 L Ha.
  destruct (rate_after_date_change engine v1 d1 st N1 P1) as [R1 [U1 _]].
  destruct (rate_after_date_change engine v2 d2 st N2 P2) as [R2 [U2 _]].
  rewrite Ha in U1, U2.
  set (r1 := round4 (schedule d1)) in *.
  set (r2 := round4 (schedule d2)) in *.
  assert (Lr : (r1 <= r2)%Qc) by (apply round4_mono, schedule_mono, L).
  assert (Pr1 : (0 < r1)%Qc).
  { apply Qclt_le_trans with (y := baseRate).
    - apply Qc_ltb_lt. reflexivity.
    - rewrite <- round4_base. apply round4_mono, schedule_bounds. }
  assert (Pr2 : (0 < r2)%Qc)
    by (apply Qclt_le_trans with (y := r1); assumption).
  destruct (Qclt_le_dec 0 a) as [Pa|Na].
  - destruct (base_positive _ _ _ a r1 U1 R1 Pa Pr1) as [E1 _].
    destruct (base_positive _ _ _ a r2 U2 R2 Pa Pr2) as [E2 _].
    exists (a * (Q2Qc 10000 / r1))%Qc, (a * (Q2Qc 10000 / r2))%Qc.
    split; [exact E1|]. split; [exact E2|].
    rewrite !(Qcmult_comm a). apply Qcmult_le_compat_r.
    + apply Qcdiv_antitone; [|exact Pr1|exact Lr].
      apply Qc_ltb_ge. reflexivity.
    + now apply Qclt_le_weak.
  - exists 0%Qc, 0%Qc.
    assert (G : forall p, usdAmount p = Fin a ->
                          gt (usdAmount p) (of_Z 0) = false).
    { intros p E. rewrite E, gt_zero_Fin. now apply Qc_ltb_ge. }
    destruct (base_degenerate _ _ _ (or_introl (G _ U1))) as [E1 _].
    destruct (base_degenerate _ _ _ (or_introl (G _ U2))) as [E2 _].
    split; [exact E1|]. split; [exact E2|]. apply Qcle_refl.
Qed.

Lemma later_date_no_more_points_witness :
  exists b1 b2 : Qc,
    basePoints (render (handleDateChange strict_engine "2025-12-10"
                          initialState)) = Fin b1
    /\ basePoints (render (handleDateChange strict_engine "2025-12-20"
                             initialState)) = Fin b2
    /\ (b2 <= b1)%Qc.
Proof.
  refine (later_date_no_more_points strict_engine "2025-12-10" "2025-12-20"
            1765324800000 1766188800000 initialState (Q2Qc 1000)
            _ _ _ _ _ _).
  - apply String.eqb_neq. reflexivity.
  - apply String.eqb_neq. reflexivity.
  - vm_compute. reflexivity.
  - vm_compute. reflexivity.
  - lia.
  - js_eval.
Defined.

Lemma handle_leaves_rate
    (engine : string -> option time) (ev : event) (st : State) :
  leaves_rate engine ev = true -> rate (handle engine ev st) = rate st.
Proof.
  destruct ev as [v|v|now|v|v]; cbn [leaves_rate handle]; intros K;
    try discriminate K; try reflexivity.
  - unfold handleDateChange.
    destruct (computeRateForDate engine v); [discriminate K | reflexivity].
  - rewrite handleUseToday_as_date_change. unfold handleDateChange.
    destruct (computeRateForDate engine _); [discriminate K | reflexivity].
Qed.

(** X16: a rate typed by hand stays in the rate field, and is the rate the
    computation reads, through every later amount edit, bonus edit and
    date without a schedule rate; only a date with a schedule rate or
    another edit of the rate replaces it. *)
Theorem manual_rate_persists
    (engine : string -> option time) (evs : list event) (v : string)
    (st : State) :
  forallb (leaves_rate engine) evs = true ->
  let st' := run engine evs (handle engine (RateChange v) st) in
  rate st' = v
  /\ ratePer10k (render st') = or_else (parseFloat v) (of_Z 0).
Proof.
  intros K st'.
  assert (G : forall s0, rate (run engine evs s0) = rate s0).
  { unfold run. induction evs as [|ev evs IH]; intros s0; [reflexivity|].
    cbn [forallb] in K. apply andb_prop in K. destruct K as [K0 K1].
    cbn [fold_left]. rewrite (IH K1). now apply handle_leaves_rate. }
  assert (E : rate st' = v) by (subst st'; now rewrite G).
  split; [exact E|].
  destruct (inputs_read (usd st') (rate st') (bonus st')) as [_ [R _]].
  unfold render. now rewrite R, E.
Qed.

Lemma manual_rate_persists_witness :
  let st' := run strict_engine
               [UsdChange "500"; DateChange "next week"; BonusChange "3"]
               (handle strict_engine (RateChange "4.25") initialState) in
  rate st' = "4.25"
  /\ ratePer10k (render st') = or_else (parseFloat "4.25") (of_Z 0).
Proof.
  refine (manual_rate_persists strict_engine
            [UsdChange "500"; DateChange "next week"; BonusChange "3"]
            "4.25" initialState _).
  vm_compute. reflexivity.
Defined.

End ProveX.
